(** * Sequential tool-calling engine of [backend/ai_generator.py]

    A shallow embedding of the class [AIGenerator]: the request builder of
    [generate_response], the bounded round loop of [_handle_tool_execution],
    the batch executor [_execute_all_tools] and the text extractor
    [_extract_text_content], followed by the properties of the engine.

    Conventions of the embedding.
    - The LM client ([self.client.messages.create]) and the tool manager
      ([tool_manager.execute_tool]) are external, stateful collaborators.
      They are functions over an explicit world state; each call either
      raises a Python [Exception] or returns a value.
    - Every call to a collaborator is recorded, in order, in a trace of
      events, together with its outcome.
    - Only exceptions derived from [Exception] are modelled: they are the
      ones the [except Exception] clauses of the source catch.
    - The LM client returns response objects, as the SDK and the mocks of the
      tests do; a response object is truthy.  A tool returns a string.
    - A request is recorded as it is when the call is made.  The source
      passes the same [messages] list to every later call and appends to it
      between calls; what a call sees is the list at the time of the call.
    - A Python value that may be [None] is an [option]; a dictionary key that
      may be missing is an [option] as well.
    - The [print] statements of the source write to stdout only and are not
      modelled. *)

From Stdlib Require Import String Ascii List Bool Arith ZArith Lia DecimalString.
Import ListNotations.

Local Open Scope string_scope.
Local Open Scope list_scope.

(** ** Data model *)

(** Keyword arguments of a tool call ([content_block.input]). *)
Definition ToolInput : Type := list (string * string).

(** A content block of an LM response.  The source probes blocks by duck
    typing: [hasattr(block, "text")] holds for text blocks only, and
    [block.type == "tool_use"] for tool-use blocks only.  [OpaqueBlock] stands
    for any other block of the SDK: it has no [text] attribute and its type
    is not ["tool_use"]. *)
Inductive ContentBlock : Type :=
| TextBlock (text : string)
| ToolUseBlock (id name : string) (input : ToolInput)
| OpaqueBlock.

Record Response : Type := mkResponse {
  stop_reason : string;
  content : list ContentBlock
}.

Record ToolSchema : Type := mkToolSchema {
  schema_name : string;
  schema_description : string;
  schema_input : string
}.

(** The dictionary [{"type": "tool_result", "tool_use_id": .., "content": ..}]. *)
Record ToolResult : Type := mkToolResult {
  tool_use_id : string;
  result_content : string
}.

Inductive Role : Type := user | assistant.

(** The ["content"] of a message is the query string, the content blocks of
    an assistant turn, or a list of tool results. *)
Inductive MessageContent : Type :=
| QueryText (s : string)
| Blocks (bs : list ContentBlock)
| Results (rs : list ToolResult).

Record Message : Type := mkMessage {
  role : Role;
  msg_content : MessageContent
}.

(** The value [{"type": "auto"}]. *)
Inductive ToolChoice : Type := choice_auto.

(** Keyword arguments of [messages.create].  [tools = None] and
    [tool_choice = None] mean that the key is absent from the dictionary;
    [tool_choice = Some None] is the key bound to Python's [None]. *)
Record Request : Type := mkRequest {
  model : string;
  temperature : Z;
  max_tokens : Z;
  messages : list Message;
  system : string;
  tools : option (list ToolSchema);
  tool_choice : option (option ToolChoice)
}.

(** A raised [Exception]; [str(e)] is [exn_msg]. *)
Record Exn : Type := mkExn {
  exn_class : string;
  exn_msg : string
}.

Definition IndexError : Exn := mkExn "IndexError" "list index out of range".

(** Python's message for a missing attribute also names the type of the
    object, which the embedding does not record.  Of an [AttributeError]
    only [exn_class] is meaningful; the message built here is schematic. *)
Definition AttributeError (attr : string) : Exn :=
  mkExn "AttributeError" ("object has no attribute " ++ attr).

(** ** [_extract_text_content] *)

Definition NO_RESPONSE_TEXT : string :=
  "I apologize, but I couldn't generate a response.".

Definition NO_TEXT_BLOCK_TEXT : string :=
  "I processed your request but couldn't generate a text response.".

(** [hasattr(content_block, "text")] *)
Definition has_text (b : ContentBlock) : bool :=
  match b with
  | TextBlock _ => true
  | _ => false
  end.

(** The [for] loop over [response.content] that returns the first text. *)
Fixpoint scan_text_blocks (blocks : list ContentBlock) : option string :=
  match blocks with
  | [] => None
  | TextBlock text :: _ => Some text
  | _ :: rest => scan_text_blocks rest
  end.

(** [response] is [None] or a response object; a response object is truthy,
    an empty [content] list is falsy. *)
Definition _extract_text_content (response : option Response) : string :=
  match response with
  | None => NO_RESPONSE_TEXT
  | Some r =>
      match content r with
      | [] => NO_RESPONSE_TEXT
      | TextBlock text :: _ => text
      | _ :: _ =>
          match scan_text_blocks (content r) with
          | Some text => text
          | None => NO_TEXT_BLOCK_TEXT
          end
      end
  end.

(** What the specification says: the text of the first element that carries
    text, if there is one. *)
Definition first_text_bearing (blocks : list ContentBlock) : option string :=
  match find has_text blocks with
  | Some (TextBlock text) => Some text
  | _ => None
  end.

(** ** Constants of the class *)

Definition nl : string := String "010"%char EmptyString.
Definition dq : string := String "034"%char EmptyString.

(** Maximum number of sequential tool calling rounds. *)
Definition MAX_TOOL_ROUNDS : nat := 2.

(** The static system prompt, line by line; the lines are joined by the
    newline character and the text ends with a newline. *)
Definition SYSTEM_PROMPT : string :=
  String.concat nl [
    " You are an AI assistant specialized in course materials and educational content with access to comprehensive search and outline tools for course information.";
    EmptyString;
    "Tool Usage Guidelines - Sequential Tool Calling Enabled:";
    "- **Course outline/structure questions**: ALWAYS use the get_course_outline tool to get complete course information including title, course link, and all lessons with numbers and titles";
    "- **Course content questions**: ALWAYS use the search_course_content tool first for ANY topic that might be covered in course materials (ML, AI, programming, data science, etc.)";
    "- **Sequential usage**: You can make up to 2 rounds of tool calls per user query for complex queries";
    "- **Round 1**: Make your initial search or outline request to gather foundational information";
    "- **Round 2**: If beneficial, make a follow-up tool call to search for additional details, comparisons, or specific aspects";
    "- Synthesize tool results into accurate, fact-based responses";
    "- If tools yield no results, state this clearly without offering alternatives";
    EmptyString;
    "Response Protocol:";
    "- **When in doubt, search first**: If a query could possibly relate to course content, use search_course_content tool";
    "- **Sequential strategy**: After getting initial results, consider if a follow-up search would add significant value";
    ("- **Course outline questions** (e.g., " ++ dq ++ "What is the outline of..." ++ dq ++ ", " ++ dq ++ "What lessons are in..." ++ dq ++ ", " ++ dq ++ "Course structure..." ++ dq ++ "): Use get_course_outline tool, then search specific lessons if needed")%string;
    "- **Comparison queries**: Search each topic/course separately for comprehensive comparisons";
    "- **Only use general knowledge** for clearly unrelated topics (geography, history, basic facts not covered in courses)";
    "- **No meta-commentary**:";
    " - Provide direct answers only â€” no reasoning process, tool explanations, or question-type analysis";
    (" - Do not mention " ++ dq ++ "based on the search results" ++ dq ++ " or " ++ dq ++ "using the outline tool" ++ dq)%string;
    EmptyString;
    "For Outline Queries:";
    "- Always include the complete course title, course link (if available), and the full lesson list";
    "- Format each lesson as: lesson number, lesson title, and lesson link (if available)";
    "- Present information in a clear, structured format";
    EmptyString;
    "All responses must be:";
    "1. **Brief, Concise and focused** - Get to the point quickly";
    "2. **Educational** - Maintain instructional value";
    "3. **Clear** - Use accessible language";
    "4. **Example-supported** - Include relevant examples when they aid understanding";
    "Provide only the direct answer to what was asked.";
    EmptyString
  ].

Definition TOOL_FAILURE_TEXT : string :=
  "I encountered an error while searching for information. Let me provide what I can from my knowledge.".

(** [{"model": self.model, "temperature": 0, "max_tokens": 1200}] *)
Definition BASE_TEMPERATURE : Z := 0.
Definition BASE_MAX_TOKENS : Z := 1200.

(** Decimal rendering of a round number inside an f-string. *)
Definition str_of_nat (n : nat) : string :=
  NilEmpty.string_of_uint (Nat.to_uint n).

(** Python truthiness of the optional arguments: [None], the empty string
    and the empty list are falsy. *)
Definition truthy_str (s : option string) : bool :=
  match s with
  | Some (String _ _) => true
  | _ => false
  end.

Definition truthy_list {A : Type} (l : option (list A)) : bool :=
  match l with
  | Some (_ :: _) => true
  | _ => false
  end.

(** ** Effects: collaborators, events, and the monad of the engine *)

(** One entry per call to a collaborator, with what the call produced.
    [ToolBatch n] marks an invocation of [_execute_all_tools] in round [n]. *)
Inductive Event : Type :=
| LMCall (request : Request) (outcome : Exn + Response)
| ToolBatch (round_count : nat)
| ToolCall (name : string) (input : ToolInput) (outcome : Exn + string).

(** The [return] statements of the engine, named after what ends the run, and
    the two ways a call can end. *)
Inductive ReturnSite : Type :=
| direct_response          (* generate_response: return response.content[0].text *)
| no_tool_use              (* loop: stop_reason is not tool_use *)
| tool_failure             (* loop: not execution_success *)
| lm_failure_extracted     (* handler: current_response is truthy *)
| lm_failure_error_msg     (* handler: else error_msg *)
| max_rounds.              (* after the loop *)

Inductive Outcome : Type :=
| Return (site : ReturnSite) (value : string)
| Raise (e : Exn).

Definition returned (o : Outcome) : option string :=
  match o with
  | Return _ value => Some value
  | Raise _ => None
  end.

Definition return_site (o : Outcome) : option ReturnSite :=
  match o with
  | Return site _ => Some site
  | Raise _ => None
  end.

Section Engine.

(** State of everything outside the engine: the LM service, the tool
    registry and whatever the tools touch. *)
Variable World : Type.

(** [client.messages.create], applied to the keyword arguments. *)
Definition LMClient : Type := Request -> World -> (Exn + Response) * World.

(** [tool_manager.execute_tool(name, **input)] *)
Definition ToolManager : Type :=
  string -> ToolInput -> World -> (Exn + string) * World.

(** A computation reads and updates the world and emits events. *)
Definition M (A : Type) : Type := World -> A * World * list Event.

Definition ret {A : Type} (a : A) : M A := fun w => (a, w, []).

Definition bind {A B : Type} (m : M A) (f : A -> M B) : M B :=
  fun w =>
    let '(a, w1, t1) := m w in
    let '(b, w2, t2) := f a w1 in
    (b, w2, t1 ++ t2).

Definition emit (e : Event) : M unit := fun w => (tt, w, [e]).

Definition create (client : LMClient) (params : Request)
  : M (Exn + Response) :=
  fun w => let '(out, w1) := client params w in
           (out, w1, [LMCall params out]).

Definition execute_tool (tool_manager : ToolManager) (name : string)
           (input : ToolInput) : M (Exn + string) :=
  fun w => let '(out, w1) := tool_manager name input w in
           (out, w1, [ToolCall name input out]).

Definition result_of {A : Type} (run : A * World * list Event) : A :=
  fst (fst run).

Definition trace_of {A : Type} (run : A * World * list Event) : list Event :=
  snd run.

End Engine.

Arguments ret {World A} a.
Arguments bind {World A B} m f.
Arguments emit {World} e.
Arguments create {World} client params.
Arguments execute_tool {World} tool_manager name input.
Arguments result_of {World A} run.
Arguments trace_of {World A} run.

Declare Scope engine_scope.
Delimit Scope engine_scope with engine.
Notation "x <- m ;; k" := (bind m (fun x => k))
  (at level 61, m at next level, right associativity) : engine_scope.
Notation "m ;; k" := (bind m (fun _ => k))
  (at level 61, right associativity) : engine_scope.
Notation "' pat <- m ;; k" :=
  (bind m (fun x => match x with pat => k end))
  (at level 61, pat pattern, m at next level, right associativity)
  : engine_scope.

(** ** The class [AIGenerator] *)

(** The attributes set by [__init__]; [base_params] is rebuilt from [self_model]
    and the two numeric constants wherever the source splats it. *)
Record AIGenerator (World : Type) : Type := mkAIGenerator {
  client : LMClient World;
  self_model : string
}.

Arguments client {World} a.
Arguments self_model {World} a.

Section Generator.

Context {World : Type}.
Variable self : AIGenerator World.

Local Open Scope engine_scope.

(** The body of the [for] loop of [_execute_all_tools] under its [try]:
    [inl e] when a tool raised [e] (the loop is left at once), otherwise
    the accumulated [tool_results]. *)
Fixpoint execute_blocks (tool_manager : ToolManager World)
         (blocks : list ContentBlock) (tool_results : list ToolResult)
  : M World (Exn + list ToolResult) :=
  match blocks with
  | [] => ret (inr tool_results)
  | ToolUseBlock id name input :: rest =>
      out <- execute_tool tool_manager name input ;;
      match out with
      | inl e => ret (inl e)
      | inr tool_result =>
          execute_blocks tool_manager rest
            (tool_results ++ [mkToolResult id tool_result])
      end
  | _ :: rest => execute_blocks tool_manager rest tool_results
  end.

Definition _execute_all_tools (response : Response)
           (tool_manager : ToolManager World) (round_count : nat)
  : M World (list ToolResult * bool) :=
  emit (ToolBatch round_count) ;;
  r <- execute_blocks tool_manager (content response) [] ;;
  match r with
  | inr tool_results => ret (tool_results, true)
  | inl _ => ret ([], false)
  end.

(** [next_params] of a round. *)
Definition next_params (messages : list Message) (base_params : Request)
  : Request :=
  {| model := self_model self;
     temperature := BASE_TEMPERATURE;
     max_tokens := BASE_MAX_TOKENS;
     messages := messages;
     system := system base_params;
     tools := Some (match tools base_params with
                    | Some ts => ts
                    | None => []
                    end);
     tool_choice := Some (if truthy_list (tools base_params)
                          then Some choice_auto
                          else None) |}.

Definition error_msg (round_count : nat) (e : Exn) : string :=
  "Error in tool execution round " ++ str_of_nat round_count ++ ": "
    ++ exn_msg e.

(** The [while round_count < MAX_TOOL_ROUNDS] loop.  [remaining] is
    [MAX_TOOL_ROUNDS - round_count]: the loop is left when it reaches 0. *)
Fixpoint tool_rounds (remaining round_count : nat)
         (messages : list Message) (current_response : option Response)
         (base_params : Request) (tool_manager : ToolManager World)
  : M World Outcome :=
  match remaining with
  | O => ret (Return max_rounds (_extract_text_content current_response))
  | S remaining' =>
      let round_count := S round_count in
      match current_response with
      | None => ret (Raise (AttributeError "stop_reason"))
      | Some response =>
          if negb (stop_reason response =? "tool_use")
          then ret (Return no_tool_use
                      (_extract_text_content current_response))
          else
            let messages :=
              messages ++ [mkMessage assistant (Blocks (content response))] in
            '(tool_results, execution_success) <-
               _execute_all_tools response tool_manager round_count ;;
            if negb execution_success
            then ret (Return tool_failure TOOL_FAILURE_TEXT)
            else
              let messages :=
                match tool_results with
                | [] => messages
                | _ :: _ => messages ++ [mkMessage user (Results tool_results)]
                end in
              out <- create (client self) (next_params messages base_params) ;;
              match out with
              | inr next_response =>
                  tool_rounds remaining' round_count messages
                              (Some next_response) base_params tool_manager
              | inl e =>
                  ret (match current_response with
                       | Some _ =>
                           Return lm_failure_extracted
                                  (_extract_text_content current_response)
                       | None =>
                           Return lm_failure_error_msg
                                  (error_msg round_count e)
                       end)
              end
      end
  end.

Definition _handle_tool_execution (initial_response : option Response)
           (base_params : Request) (tool_manager : ToolManager World)
  : M World Outcome :=
  tool_rounds MAX_TOOL_ROUNDS 0 (messages base_params) initial_response
              base_params tool_manager.

Definition system_content (conversation_history : option string) : string :=
  match conversation_history with
  | Some history =>
      if truthy_str conversation_history
      then SYSTEM_PROMPT ++ nl ++ nl ++ "Previous conversation:" ++ nl
             ++ history
      else SYSTEM_PROMPT
  | None => SYSTEM_PROMPT
  end.

(** [api_params] of the first request. *)
Definition api_params (query : string) (conversation_history : option string)
           (tools : option (list ToolSchema)) : Request :=
  {| model := self_model self;
     temperature := BASE_TEMPERATURE;
     max_tokens := BASE_MAX_TOKENS;
     messages := [mkMessage user (QueryText query)];
     system := system_content conversation_history;
     tools := if truthy_list tools then tools else None;
     tool_choice := if truthy_list tools then Some (Some choice_auto)
                    else None |}.

(** [response.content[0].text] *)
Definition first_block_text (response : Response) : Outcome :=
  match content response with
  | [] => Raise IndexError
  | TextBlock text :: _ => Return direct_response text
  | _ :: _ => Raise (AttributeError "text")
  end.

Definition generate_response (query : string)
           (conversation_history : option string)
           (tools : option (list ToolSchema))
           (tool_manager : option (ToolManager World))
  : M World Outcome :=
  let api_params := api_params query conversation_history tools in
  out <- create (client self) api_params ;;
  match out with
  | inl e => ret (Raise e)
  | inr response =>
      match (stop_reason response =? "tool_use"), tool_manager with
      | true, Some manager =>
          _handle_tool_execution (Some response) api_params manager
      | _, _ => ret (first_block_text response)
      end
  end.

End Generator.

(** ** Observations on a trace *)

Fixpoint lm_calls (trace : list Event) : list (Request * (Exn + Response)) :=
  match trace with
  | [] => []
  | LMCall request outcome :: rest => (request, outcome) :: lm_calls rest
  | _ :: rest => lm_calls rest
  end.

Fixpoint tool_calls (trace : list Event)
  : list (string * ToolInput * (Exn + string)) :=
  match trace with
  | [] => []
  | ToolCall name input outcome :: rest =>
      (name, input, outcome) :: tool_calls rest
  | _ :: rest => tool_calls rest
  end.

Fixpoint tool_batches (trace : list Event) : list nat :=
  match trace with
  | [] => []
  | ToolBatch round_count :: rest => round_count :: tool_batches rest
  | _ :: rest => tool_batches rest
  end.

Definition tool_use_ids (blocks : list ContentBlock) : list string :=
  flat_map (fun b => match b with
                     | ToolUseBlock id _ _ => [id]
                     | _ => []
                     end) blocks.

Definition lm_requests (trace : list Event) : list Request :=
  map fst (lm_calls trace).

(** The request of each LM call after the first. *)
Definition later_requests (trace : list Event) : list Request :=
  tl (lm_requests trace).

(** The responses delivered by a list of LM calls. *)
Definition responses (calls : list (Request * (Exn + Response)))
  : list Response :=
  flat_map (fun call => match snd call with
                        | inr r => [r]
                        | inl _ => []
                        end) calls.

Definition tool_raised (ev : Event) : bool :=
  match ev with
  | ToolCall _ _ (inl _) => true
  | _ => false
  end.

Definition is_tool_call (ev : Event) : bool :=
  match ev with
  | ToolCall _ _ _ => true
  | _ => false
  end.

(** A trace in which no tool raised. *)
Definition tools_quiet (trace : list Event) : Prop :=
  Forall (fun ev => tool_raised ev = false) trace.

(** ** The shape of a run

    What a run of the round loop leaves behind, independently of the world:
    its outcome and its trace.  [rounds_run remaining round_count messages
    current_response outcome trace] has one rule per way of leaving an
    iteration of the loop. *)

(** A batch in which every tool returned: tool calls only, none raised, and
    the results carry the ids of the tool-use blocks in order. *)
Definition completed_batch (response : Response) (calls : list Event)
           (results : list ToolResult) : Prop :=
  Forall (fun ev => is_tool_call ev = true) calls /\
  tools_quiet calls /\
  map tool_use_id results = tool_use_ids (content response).

(** A batch cut short by the first tool that raised. *)
Definition failed_batch (calls : list Event) : Prop :=
  exists pre name input e,
    calls = pre ++ [ToolCall name input (inl e)] /\
    Forall (fun ev => is_tool_call ev = true) pre /\
    tools_quiet pre.

(** The message list sent after a round: the assistant turn, then one user
    message with the results unless there are none. *)
Definition round_messages (msgs : list Message) (response : Response)
           (results : list ToolResult) : list Message :=
  match results with
  | [] => msgs ++ [mkMessage assistant (Blocks (content response))]
  | _ :: _ =>
      (msgs ++ [mkMessage assistant (Blocks (content response))])
        ++ [mkMessage user (Results results)]
  end.

Section RunShape.

Context {World : Type}.
Variable self : AIGenerator World.
Variable base_params : Request.

Inductive rounds_run
  : nat -> nat -> list Message -> option Response -> Outcome -> list Event
    -> Prop :=
| run_max_rounds : forall round_count msgs current,
    rounds_run 0 round_count msgs current
      (Return max_rounds (_extract_text_content current)) []
| run_no_response : forall remaining round_count msgs,
    rounds_run (S remaining) round_count msgs None
      (Raise (AttributeError "stop_reason")) []
| run_no_tool_use : forall remaining round_count msgs response,
    stop_reason response <> "tool_use" ->
    rounds_run (S remaining) round_count msgs (Some response)
      (Return no_tool_use (_extract_text_content (Some response))) []
| run_tool_failure : forall remaining round_count msgs response calls,
    stop_reason response = "tool_use" ->
    failed_batch calls ->
    rounds_run (S remaining) round_count msgs (Some response)
      (Return tool_failure TOOL_FAILURE_TEXT)
      (ToolBatch (S round_count) :: calls)
| run_lm_failure : forall remaining round_count msgs response calls results e,
    stop_reason response = "tool_use" ->
    completed_batch response calls results ->
    rounds_run (S remaining) round_count msgs (Some response)
      (Return lm_failure_extracted (_extract_text_content (Some response)))
      (ToolBatch (S round_count) :: calls
         ++ [LMCall (next_params self (round_messages msgs response results)
                                 base_params) (inl e)])
| run_next_round : forall remaining round_count msgs response calls results
                          next_response outcome rest,
    stop_reason response = "tool_use" ->
    completed_batch response calls results ->
    rounds_run remaining (S round_count)
      (round_messages msgs response results) (Some next_response)
      outcome rest ->
    rounds_run (S remaining) round_count msgs (Some response) outcome
      (ToolBatch (S round_count) :: calls
         ++ LMCall (next_params self (round_messages msgs response results)
                                base_params) (inr next_response) :: rest).

End RunShape.

(** The shape of a run of [generate_response]: the first call raised, the
    first response was answered directly, or the round loop ran. *)
Inductive response_run {World : Type} (self : AIGenerator World)
          (request : Request) (with_manager : bool)
  : Outcome -> list Event -> Prop :=
| run_first_call_raised : forall e,
    response_run self request with_manager (Raise e) [LMCall request (inl e)]
| run_direct : forall response,
    (stop_reason response =? "tool_use") && with_manager = false ->
    response_run self request with_manager (first_block_text response)
      [LMCall request (inr response)]
| run_rounds : forall response outcome rest,
    stop_reason response = "tool_use" ->
    with_manager = true ->
    rounds_run self request MAX_TOOL_ROUNDS 0 (messages request)
      (Some response) outcome rest ->
    response_run self request with_manager outcome
      (LMCall request (inr response) :: rest).

Definition is_some {A : Type} (o : option A) : bool :=
  match o with
  | Some _ => true
  | None => false
  end.

(** Decidable conditions on a run: no tool raised; every LM call returned
    a response that requests tool use. *)
Definition no_tool_raised (trace : list Event) : bool :=
  forallb (fun ev => negb (tool_raised ev)) trace.

Definition requests_tool_use (outcome : Exn + Response) : bool :=
  match outcome with
  | inr r => (stop_reason r =? "tool_use")%string
  | inl _ => false
  end.

Definition all_request_tool_use (trace : list Event) : bool :=
  forallb (fun call => requests_tool_use (snd call)) (lm_calls trace).

(** ** Three sentences of the specification, as they are written

    Each is compared with the engine below. *)

(** "For any sequence of LM responses that all request tools, exactly
    MAX_ROUNDS (2) rounds execute; a third LM call is never issued." *)
Definition bounded_rounds_as_stated : Prop :=
  forall (World : Type) (self : AIGenerator World) query history tools
         (manager : ToolManager World) (w : World),
    let run := generate_response self query history tools (Some manager) w in
    all_request_tool_use (trace_of run) = true ->
    no_tool_raised (trace_of run) = true ->
    length (tool_batches (trace_of run)) = MAX_TOOL_ROUNDS /\
    length (lm_calls (trace_of run)) <= 2.

(** "If tools is omitted, the engine must never attempt tool execution even
    if a misconfigured LM response claims tool use." *)
Definition no_tools_no_execution_as_stated : Prop :=
  forall (World : Type) (self : AIGenerator World) query history
         (manager : option (ToolManager World)) (w : World),
    let run := generate_response self query history None manager w in
    tool_batches (trace_of run) = [] /\ tool_calls (trace_of run) = [].

(** "Build the next request reusing ... the same system content, and tools
    still enabled": every request after the first has the system content
    and the tools of the first one, and [tool_choice] set to auto. *)
Definition tools_persist_as_stated : Prop :=
  forall (World : Type) (self : AIGenerator World) query history schemas
         (manager : option (ToolManager World)) (w : World),
    let run := generate_response self query history schemas manager w in
    let first := api_params self query history schemas in
    Forall (fun request =>
              system request = system first /\
              tools request = tools first /\
              tool_choice request = Some (Some choice_auto))
           (later_requests (trace_of run)).

(** ** Further observations *)

(** The tool invocations a response asks for: name and keyword arguments
    of its tool-use blocks, in order. *)
Definition tool_requests (blocks : list ContentBlock)
  : list (string * ToolInput) :=
  flat_map (fun b => match b with
                     | ToolUseBlock _ name input => [(name, input)]
                     | _ => []
                     end) blocks.

(** The strings returned by the tool calls that did not raise. *)
Definition outputs (calls : list (string * ToolInput * (Exn + string)))
  : list string :=
  flat_map (fun call => match snd call with
                        | inr s => [s]
                        | inl _ => []
                        end) calls.

(** The last response the LM delivered in a run, if any. *)
Definition last_response (trace : list Event) : option Response :=
  last (map Some (responses (lm_calls trace))) None.

Definition is_lm_call (ev : Event) : bool :=
  match ev with
  | LMCall _ _ => true
  | _ => false
  end.

Definition ended_by_tool_failure (o : Outcome) : bool :=
  match o with
  | Return tool_failure _ => true
  | _ => false
  end.

(** The messages a round appends: an assistant turn made of content blocks,
    or a user turn made of tool results. *)
Definition is_round_message (m : Message) : bool :=
  match role m, msg_content m with
  | assistant, Blocks _ => true
  | user, Results _ => true
  | _, _ => false
  end.


(** ** Collaborators used in the examples

    Counterparts of the mocks of [tests/test_ai_generator.py]. *)

Module Fixtures.

(** [MockAnthropicResponse(stop_reason="tool_use", tool_use_content=[..])] *)
Definition tool_use_response (id : string) : Response :=
  mkResponse "tool_use"
    [ToolUseBlock id "search_course_content" [("query", "X")]].

(** [MockAnthropicResponse(content_text)] *)
Definition text_response (text : string) : Response :=
  mkResponse "end_turn" [TextBlock text].

(** [messages.create.return_value = response]; the world is untouched. *)
Definition returning (response : Response) : LMClient unit :=
  fun _ w => (inr response, w).

(** [messages.create.side_effect = Exception(msg)] *)
Definition raising (msg : string) : LMClient unit :=
  fun _ w => (inl (mkExn "Exception" msg), w).

(** [messages.create.side_effect = [..]]: the world is the list of
    outcomes still to be delivered. *)
Definition Script : Type := list (Exn + Response).

Definition scripted : LMClient Script :=
  fun _ script =>
    match script with
    | [] => (inl (mkExn "StopIteration" EmptyString), [])
    | outcome :: rest => (outcome, rest)
    end.

(** A tool manager whose tools succeed, and one whose tools raise. *)
Definition working_tools {World : Type} : ToolManager World :=
  fun name _ w => (inr ("results of " ++ name)%string, w).

Definition failing_tools {World : Type} : ToolManager World :=
  fun _ _ w => (inl (mkExn "Exception" "boom"), w).

Definition MODEL : string := "claude-sonnet-4-20250514".

Definition generator {World : Type} (c : LMClient World)
  : AIGenerator World :=
  mkAIGenerator World c MODEL.

Definition search_schema : ToolSchema :=
  mkToolSchema "search_course_content" "Search course materials" "object".

End Fixtures.

(** ** Lemmas on the trace observations *)

Lemma lm_calls_app (t1 t2 : list Event) :
  lm_calls (t1 ++ t2) = lm_calls t1 ++ lm_calls t2.
Proof.
  induction t1 as [|ev t1 IH]; simpl; [reflexivity|].
  destruct ev; simpl; rewrite IH; reflexivity.
Qed.

Lemma tool_batches_app (t1 t2 : list Event) :
  tool_batches (t1 ++ t2) = tool_batches t1 ++ tool_batches t2.
Proof.
  induction t1 as [|ev t1 IH]; simpl; [reflexivity|].
  destruct ev; simpl; rewrite IH; reflexivity.
Qed.

(** ** [_extract_text_content] *)

Lemma scan_text_blocks_first_text (blocks : list ContentBlock) :
  scan_text_blocks blocks = first_text_bearing blocks.
Proof.
  unfold first_text_bearing.
  induction blocks as [|b rest IH]; simpl; [reflexivity|].
  destruct b; simpl; auto.
Qed.

(** C9.  For every response object, and for [None], [_extract_text_content]
    is defined (it is a total function, so it never raises) and returns: the
    text of the first content element that carries text when there is one;
    the fixed string [NO_TEXT_BLOCK_TEXT] when the content is not empty and
    no element carries text; the fixed string [NO_RESPONSE_TEXT] when the
    response is [None] or its content is empty. *)
Theorem C9_extract_text_content_spec (response : option Response) :
  _extract_text_content response =
    match response with
    | None => NO_RESPONSE_TEXT
    | Some r =>
        match content r with
        | [] => NO_RESPONSE_TEXT
        | _ :: _ =>
            match first_text_bearing (content r) with
            | Some text => text
            | None => NO_TEXT_BLOCK_TEXT
            end
        end
    end.
Proof.
  destruct response as [r|]; [|reflexivity].
  unfold _extract_text_content.
  destruct (content r) as [|b rest] eqn:Hc; [reflexivity|].
  rewrite <- scan_text_blocks_first_text.
  destruct b; reflexivity.
Qed.

(** ** The batch executor *)

Section GeneratorFacts.

Context {World : Type}.
Variable self : AIGenerator World.

Lemma only_tool_calls_no_lm (trace : list Event) :
  Forall (fun ev => is_tool_call ev = true) trace ->
  lm_calls trace = [] /\ tool_batches trace = [].
Proof.
  induction 1 as [|ev rest Hev _ IH]; simpl; [auto|].
  destruct ev; simpl in *; try discriminate; exact IH.
Qed.

(** The loop of the executor performs tool calls only.  When it completes,
    no call raised and the results carry, in order, the ids of the
    tool-use blocks; when a tool raises, that call is the last event. *)
Lemma execute_blocks_spec (tm : ToolManager World) :
  forall blocks acc w res w' trace,
    execute_blocks tm blocks acc w = (res, w', trace) ->
    Forall (fun ev => is_tool_call ev = true) trace /\
    match res with
    | inr results =>
        map tool_use_id results = map tool_use_id acc ++ tool_use_ids blocks
        /\ tools_quiet trace
    | inl e =>
        exists pre name input,
          trace = pre ++ [ToolCall name input (inl e)] /\ tools_quiet pre
    end.
Proof.
  unfold tools_quiet.
  induction blocks as [|b rest IH]; intros acc w res w' trace Hrun.
  - inversion Hrun; subst; clear Hrun. simpl.
    rewrite app_nil_r. auto.
  - destruct b as [text|id name input|]; simpl in Hrun.
    + apply IH in Hrun. exact Hrun.
    + unfold bind, execute_tool in Hrun.
      destruct (tm name input w) as [out w1] eqn:Hcall.
      destruct out as [e|tool_result].
      * inversion Hrun; subst; clear Hrun. split.
        -- repeat constructor.
        -- exists [], name, input. split; [reflexivity|constructor].
      * destruct (execute_blocks tm rest
                    (acc ++ [mkToolResult id tool_result]) w1)
          as [[res1 w2] t2] eqn:Hrest.
        inversion Hrun; subst; clear Hrun.
        apply IH in Hrest. destruct Hrest as [Hcalls Hres]. split.
        -- simpl. constructor; [reflexivity|exact Hcalls].
        -- destruct res as [e|results].
           ++ destruct Hres as (pre & n & i & -> & Hpre).
              exists (ToolCall name input (inr tool_result) :: pre), n, i.
              split; [reflexivity|]. constructor; [reflexivity|exact Hpre].
           ++ destruct Hres as [Hids Hquiet]. split.
              ** rewrite Hids, map_app, <- app_assoc. reflexivity.
              ** simpl. constructor; [reflexivity|exact Hquiet].
    + apply IH in Hrun. exact Hrun.
Qed.

(** ** The round loop *)

Lemma execute_all_tools_spec (tm : ToolManager World) :
  forall response round_count w results ok w' trace,
    _execute_all_tools response tm round_count w = ((results, ok), w', trace) ->
    exists calls,
      trace = ToolBatch round_count :: calls /\
      Forall (fun ev => is_tool_call ev = true) calls /\
      if ok
      then map tool_use_id results = tool_use_ids (content response)
           /\ tools_quiet calls
      else results = [] /\
           exists pre name input e,
             calls = pre ++ [ToolCall name input (inl e)] /\ tools_quiet pre.
Proof.
  intros response round_count w results ok w' trace Hrun.
  unfold _execute_all_tools, bind, emit in Hrun.
  destruct (execute_blocks tm (content response) [] w)
    as [[res w1] calls] eqn:Hblocks.
  apply execute_blocks_spec in Hblocks. destruct Hblocks as [Hcalls Hres].
  destruct res as [e|tool_results]; inversion Hrun; subst; clear Hrun;
    exists calls; rewrite app_nil_r; (split; [reflexivity|split; [exact Hcalls|]]).
  - destruct Hres as (pre & name & input & -> & Hpre).
    split; [reflexivity|]. exists pre, name, input, e. auto.
  - exact Hres.
Qed.

(** One iteration of the loop on a tool-requesting response. *)
Lemma tool_rounds_unfold (tm : ToolManager World) :
  forall remaining round_count msgs response base w,
    stop_reason response = "tool_use" ->
    tool_rounds self (S remaining) round_count msgs (Some response) base tm w =
      let msgs1 := msgs ++ [mkMessage assistant (Blocks (content response))] in
      let '((results, ok), w1, t1) :=
        _execute_all_tools response tm (S round_count) w in
      if ok then
        let msgs2 := match results with
                     | [] => msgs1
                     | _ :: _ => msgs1 ++ [mkMessage user (Results results)]
                     end in
        let request := next_params self msgs2 base in
        let '(out, w2) := client self request w1 in
        match out with
        | inr next_response =>
            let '(o, w3, t3) :=
              tool_rounds self remaining (S round_count) msgs2
                          (Some next_response) base tm w2 in
            (o, w3, t1 ++ LMCall request out :: t3)
        | inl e =>
            (Return lm_failure_extracted
                    (_extract_text_content (Some response)),
             w2, t1 ++ [LMCall request out])
        end
      else (Return tool_failure TOOL_FAILURE_TEXT, w1, t1).
Proof.
  intros remaining round_count msgs response base w Hstop.
  cbn [tool_rounds]. rewrite Hstop, String.eqb_refl. cbn [negb].
  unfold bind at 1.
  destruct (_execute_all_tools response tm (S round_count) w)
    as [[[results ok] w1] t1].
  destruct ok; cbn [negb].
  - unfold bind, create.
    destruct (client self _ w1) as [out w2].
    destruct out as [e|next_response].
    + unfold ret. reflexivity.
    + destruct (tool_rounds self remaining (S round_count) _
                  (Some next_response) base tm w2) as [[o w3] t3].
      reflexivity.
  - unfold ret. rewrite app_nil_r. reflexivity.
Qed.

Lemma String_eqb_false_neq (a b : string) : (a =? b)%string = false -> a <> b.
Proof. intro H. apply String.eqb_neq. exact H. Qed.

(** Every run of the loop has one of the shapes of [rounds_run]. *)
Lemma tool_rounds_run (tm : ToolManager World) (base : Request) :
  forall remaining round_count msgs current w outcome w' trace,
    tool_rounds self remaining round_count msgs current base tm w
      = (outcome, w', trace) ->
    rounds_run self base remaining round_count msgs current outcome trace.
Proof.
  induction remaining as [|remaining IH];
    intros round_count msgs current w outcome w' trace Hrun.
  - inversion Hrun; subst. constructor.
  - destruct current as [response|].
    2:{ inversion Hrun; subst. constructor. }
    destruct (stop_reason response =? "tool_use")%string eqn:Hstop.
    + apply String.eqb_eq in Hstop.
      rewrite (tool_rounds_unfold tm _ _ _ _ _ _ Hstop) in Hrun.
      cbv zeta in Hrun.
      destruct (_execute_all_tools response tm (S round_count) w)
        as [[[results ok] w1] t1] eqn:Hbatch.
      apply execute_all_tools_spec in Hbatch.
      destruct Hbatch as (calls & -> & Hcalls & Hok).
      destruct ok.
      * destruct Hok as [Hids Hquiet].
        assert (Hdone : completed_batch response calls results)
          by (repeat split; assumption).
        change (match results with
                | [] => msgs ++ [mkMessage assistant (Blocks (content response))]
                | _ :: _ =>
                    (msgs ++ [mkMessage assistant (Blocks (content response))])
                      ++ [mkMessage user (Results results)]
                end) with (round_messages msgs response results) in Hrun.
        destruct (client self _ w1) as [out w2].
        destruct out as [e|next_response].
        -- inversion Hrun; subst. apply run_lm_failure; assumption.
        -- destruct (tool_rounds self remaining (S round_count) _
                       (Some next_response) base tm w2)
             as [[o w3] t3] eqn:Hnext.
           inversion Hrun; subst. apply IH in Hnext.
           apply run_next_round; assumption.
      * destruct Hok as (-> & pre & name & input & e & -> & Hpre).
        inversion Hrun; subst. apply run_tool_failure; [assumption|].
        exists pre, name, input, e. split; [reflexivity|]. split; [|assumption].
        apply Forall_app in Hcalls. tauto.
    + cbn [tool_rounds] in Hrun. rewrite Hstop in Hrun. cbn [negb] in Hrun.
      inversion Hrun; subst. constructor.
      apply String_eqb_false_neq. assumption.
Qed.

(** Every run of [generate_response] has one of the shapes of
    [response_run]. *)
Lemma generate_response_run :
  forall query history tools (tm : option (ToolManager World)) w outcome w' trace,
    generate_response self query history tools tm w = (outcome, w', trace) ->
    response_run self (api_params self query history tools) (is_some tm)
                 outcome trace.
Proof.
  intros query history tools tm w outcome w' trace Hrun.
  unfold generate_response, bind, create in Hrun.
  destruct (client self _ w) as [out w1].
  destruct out as [e|response].
  - inversion Hrun; subst. constructor.
  - destruct (stop_reason response =? "tool_use")%string eqn:Hstop.
    + destruct tm as [manager|].
      * destruct (_handle_tool_execution self (Some response) _ manager w1)
          as [[o w2] t2] eqn:Hloop.
        inversion Hrun; subst.
        apply tool_rounds_run in Hloop.
        apply run_rounds; [apply String.eqb_eq; assumption|reflexivity|assumption].
      * inversion Hrun; subst. apply run_direct.
        rewrite Hstop. reflexivity.
    + assert (Hdirect : (outcome, w', trace)
                = (first_block_text response, w1,
                   [LMCall (api_params self query history tools) (inr response)])).
      { destruct tm; inversion Hrun; subst; reflexivity. }
      inversion Hdirect; subst. apply run_direct.
      rewrite Hstop. reflexivity.
Qed.

(** *** List facts used on traces *)

Lemma quiet_has_no_offender {A : Type} (bad : A -> bool) :
  forall (l pre : list A) y post,
    Forall (fun a => bad a = false) l ->
    l = pre ++ y :: post ->
    bad y = true -> False.
Proof.
  intros l pre y post Hquiet -> Hbad.
  apply Forall_app in Hquiet. destruct Hquiet as [_ Hquiet].
  inversion Hquiet; subst. congruence.
Qed.

Lemma offender_after_quiet_prefix {A : Type} (bad : A -> bool) :
  forall (prefix rest pre : list A) y post,
    Forall (fun a => bad a = false) prefix ->
    bad y = true ->
    prefix ++ rest = pre ++ y :: post ->
    exists pre', pre = prefix ++ pre' /\ rest = pre' ++ y :: post.
Proof.
  induction prefix as [|a prefix IH]; intros rest pre y post Hquiet Hbad Heq.
  - exists pre. auto.
  - inversion Hquiet; subst.
    destruct pre as [|b pre]; simpl in Heq; inversion Heq; subst.
    + congruence.
    + destruct (IH rest pre y post) as (pre' & -> & ->); auto.
      exists pre'. auto.
Qed.

Lemma offender_is_last {A : Type} (bad : A -> bool) :
  forall (prefix pre : list A) x y post,
    Forall (fun a => bad a = false) prefix ->
    bad y = true ->
    prefix ++ [x] = pre ++ y :: post ->
    post = [] /\ pre = prefix /\ y = x.
Proof.
  intros prefix pre x y post Hquiet Hbad Heq.
  destruct (offender_after_quiet_prefix bad prefix [x] pre y post)
    as (pre' & -> & Hx); auto.
  destruct pre' as [|a [|b pre']]; simpl in Hx; inversion Hx; subst.
  rewrite app_nil_r. auto.
Qed.

Lemma last_cons_default {A : Type} (l : list A) :
  forall a d, last (a :: l) d = last l a.
Proof.
  induction l as [|b l IH]; intros a d; [reflexivity|].
  change (last (a :: b :: l) d) with (last (b :: l) d).
  rewrite !IH. reflexivity.
Qed.

Lemma tools_quiet_app (t1 t2 : list Event) :
  tools_quiet t1 -> tools_quiet t2 -> tools_quiet (t1 ++ t2).
Proof. unfold tools_quiet. intros. apply Forall_app. auto. Qed.

Lemma tools_quiet_round_prefix (n : nat) (calls : list Event) request out :
  tools_quiet calls ->
  tools_quiet ((ToolBatch n :: calls) ++ [LMCall request out]).
Proof.
  intro H. apply tools_quiet_app.
  - constructor; [reflexivity|exact H].
  - repeat constructor.
Qed.

(** *** Facts on the shape of a run *)

Section RoundFacts.

Variable base : Request.

(** A tool that raises ends the run: it is the last event, and the outcome is
    the apology. *)
Lemma rounds_run_tool_raise :
  forall remaining round_count msgs current outcome trace,
    rounds_run self base remaining round_count msgs current outcome trace ->
    forall pre ev post,
      trace = pre ++ ev :: post ->
      tool_raised ev = true ->
      post = [] /\ outcome = Return tool_failure TOOL_FAILURE_TEXT.
Proof.
  induction 1 as [ | | | remaining rc msgs response calls Hstop Hfail
                   | remaining rc msgs response calls results e Hstop Hdone
                   | remaining rc msgs response calls results next o rest
                       Hstop Hdone Hrest IH ];
    intros pre ev post Heq Hbad.
  - destruct pre; discriminate.
  - destruct pre; discriminate.
  - destruct pre; discriminate.
  - destruct Hfail as (pre0 & name & input & e & -> & _ & Hquiet).
    change (ToolBatch (S rc) :: pre0 ++ [ToolCall name input (inl e)])
      with ((ToolBatch (S rc) :: pre0) ++ [ToolCall name input (inl e)]) in Heq.
    assert (Hprefix : tools_quiet (ToolBatch (S rc) :: pre0))
      by (constructor; [reflexivity|exact Hquiet]).
    destruct (offender_is_last tool_raised _ _ _ _ _ Hprefix Hbad Heq)
      as (-> & _ & _).
    auto.
  - exfalso. destruct Hdone as (_ & Hquiet & _).
    apply (quiet_has_no_offender tool_raised _ _ _ _
             (tools_quiet_round_prefix (S rc) calls _ (inl e) Hquiet) Heq Hbad).
  - destruct Hdone as (_ & Hquiet & _).
    set (request := next_params self _ base) in Heq.
    assert (Heq' : ((ToolBatch (S rc) :: calls) ++ [LMCall request (inr next)])
                     ++ rest = pre ++ ev :: post)
      by (rewrite <- Heq; simpl; rewrite <- app_assoc; reflexivity).
    destruct (offender_after_quiet_prefix tool_raised _ _ _ _ _
                (tools_quiet_round_prefix (S rc) calls request (inr next) Hquiet)
                Hbad Heq') as (pre' & _ & Hrest').
    eapply IH; eassumption.
Qed.

Lemma failed_batch_tool_calls (calls : list Event) :
  failed_batch calls -> Forall (fun ev => is_tool_call ev = true) calls.
Proof.
  intros (pre & name & input & e & -> & Hpre & _).
  apply Forall_app. split; [exact Hpre|repeat constructor].
Qed.

Lemma round_trace_lm_calls (n : nat) (calls rest : list Event) request out :
  Forall (fun ev => is_tool_call ev = true) calls ->
  lm_calls (ToolBatch n :: calls ++ LMCall request out :: rest)
    = (request, out) :: lm_calls rest.
Proof.
  intro Hcalls. destruct (only_tool_calls_no_lm calls Hcalls) as (Hlm & _).
  simpl. rewrite lm_calls_app, Hlm. reflexivity.
Qed.

Lemma round_trace_batches (n : nat) (calls rest : list Event) request out :
  Forall (fun ev => is_tool_call ev = true) calls ->
  tool_batches (ToolBatch n :: calls ++ LMCall request out :: rest)
    = n :: tool_batches rest.
Proof.
  intro Hcalls. destruct (only_tool_calls_no_lm calls Hcalls) as (_ & Hb).
  simpl. rewrite tool_batches_app, Hb. reflexivity.
Qed.

Lemma failed_round_trace (n : nat) (calls : list Event) :
  failed_batch calls ->
  lm_calls (ToolBatch n :: calls) = [] /\
  tool_batches (ToolBatch n :: calls) = [n].
Proof.
  intro Hfail. apply failed_batch_tool_calls in Hfail.
  destruct (only_tool_calls_no_lm calls Hfail) as (Hlm & Hb).
  simpl. rewrite Hlm, Hb. auto.
Qed.

(** The loop makes at most [remaining] LM calls and runs at most [remaining]
    batches. *)
Lemma rounds_run_bounds :
  forall remaining round_count msgs current outcome trace,
    rounds_run self base remaining round_count msgs current outcome trace ->
    length (lm_calls trace) <= remaining /\
    length (tool_batches trace) <= remaining.
Proof.
  induction 1 as [ | | | remaining rc msgs response calls Hstop Hfail
                   | remaining rc msgs response calls results e Hstop Hdone
                   | remaining rc msgs response calls results next o rest
                       Hstop Hdone Hrest IH ].
  - simpl. lia.
  - simpl. lia.
  - simpl. lia.
  - destruct (failed_round_trace (S rc) calls Hfail) as [-> ->]. simpl. lia.
  - destruct Hdone as (Hcalls & _ & _).
    rewrite round_trace_lm_calls, round_trace_batches by exact Hcalls.
    simpl. lia.
  - destruct Hdone as (Hcalls & _ & _).
    rewrite round_trace_lm_calls, round_trace_batches by exact Hcalls.
    simpl. lia.
Qed.

(** The loop never leaves through the [error_msg] branch of the handler, and
    started on a response object it returns a string. *)
Lemma rounds_run_sites :
  forall remaining round_count msgs current outcome trace,
    rounds_run self base remaining round_count msgs current outcome trace ->
    return_site outcome <> Some lm_failure_error_msg /\
    (current <> None -> exists site value, outcome = Return site value).
Proof.
  induction 1; try (split; [discriminate|intros; eauto; congruence]).
  destruct IHrounds_run as [Hsite Hret]. split; [exact Hsite|].
  intros _. apply Hret. discriminate.
Qed.

(** Every request of the loop is [next_params] of some message list. *)
Lemma rounds_run_requests :
  forall remaining round_count msgs current outcome trace,
    rounds_run self base remaining round_count msgs current outcome trace ->
    Forall (fun request =>
              request = next_params self (messages request) base)
           (lm_requests trace).
Proof.
  unfold lm_requests.
  induction 1 as [ | | | remaining rc msgs response calls Hstop Hfail
                   | remaining rc msgs response calls results e Hstop Hdone
                   | remaining rc msgs response calls results next o rest
                       Hstop Hdone Hrest IH ].
  - constructor.
  - constructor.
  - constructor.
  - destruct (failed_round_trace (S rc) calls Hfail) as [-> _]. constructor.
  - destruct Hdone as (Hcalls & _ & _).
    rewrite round_trace_lm_calls by exact Hcalls. repeat constructor.
  - destruct Hdone as (Hcalls & _ & _).
    rewrite round_trace_lm_calls by exact Hcalls.
    constructor; [reflexivity|exact IH].
Qed.

(** Two consecutive LM calls, the response that started the loop counting as
    the outcome of a call with the loop's initial messages: the earlier call
    returned a tool-requesting response; the later request carries the
    earlier messages, the assistant turn and the results of its tool-use
    blocks; and if the later call raised, it is the last one and the
    outcome is the text extracted from the earlier response. *)
Lemma rounds_run_consecutive :
  forall remaining round_count msgs current outcome trace,
    rounds_run self base remaining round_count msgs current outcome trace ->
    forall response0 request0,
      current = Some response0 ->
      messages request0 = msgs ->
      forall pre call1 call2 post,
        (request0, inr response0) :: lm_calls trace
          = pre ++ call1 :: call2 :: post ->
        exists response results,
          snd call1 = inr response /\
          stop_reason response = "tool_use" /\
          map tool_use_id results = tool_use_ids (content response) /\
          fst call2 = next_params self
                        (round_messages (messages (fst call1)) response results)
                        base /\
          (forall e, snd call2 = inl e ->
                     post = [] /\
                     outcome = Return lm_failure_extracted
                                 (_extract_text_content (Some response))).
Proof.
  induction 1 as [ | | | remaining rc msgs response calls Hstop Hfail
                   | remaining rc msgs response calls results e Hstop Hdone
                   | remaining rc msgs response calls results next o rest
                       Hstop Hdone Hrest IH ];
    intros response0 request0 Hcur Hmsgs pre call1 call2 post Heq.
  - destruct pre as [|? [|? ?]]; discriminate.
  - discriminate.
  - destruct pre as [|? [|? ?]]; discriminate.
  - destruct (failed_round_trace (S rc) calls Hfail) as [Hlm _].
    rewrite Hlm in Heq. destruct pre as [|? [|? ?]]; discriminate.
  - destruct Hdone as (Hcalls & _ & Hids).
    rewrite round_trace_lm_calls in Heq by exact Hcalls.
    injection Hcur as <-.
    destruct pre as [|? [|? [|? ?]]]; try discriminate.
    injection Heq as <- <- <-. simpl. subst msgs.
    exists response, results. repeat split; auto.
  - destruct Hdone as (Hcalls & _ & Hids).
    rewrite round_trace_lm_calls in Heq by exact Hcalls.
    injection Hcur as <-.
    destruct pre as [|call0 pre].
    + injection Heq as <- <- _. simpl. subst msgs.
      exists response, results. repeat split; auto; discriminate.
    + injection Heq as _ Heq.
      eapply IH; [reflexivity| |exact Heq]. reflexivity.
Qed.

(** When every LM call returns a tool-requesting response and no tool
    raises, the loop runs all its rounds. *)
Lemma rounds_run_all_tool_use :
  forall remaining round_count msgs current outcome trace,
    rounds_run self base remaining round_count msgs current outcome trace ->
    forall response0,
      current = Some response0 ->
      stop_reason response0 = "tool_use" ->
      tools_quiet trace ->
      Forall (fun call => exists r, snd call = inr r
                                    /\ stop_reason r = "tool_use")
             (lm_calls trace) ->
      length (lm_calls trace) = remaining /\
      tool_batches trace = seq (S round_count) remaining /\
      outcome = Return max_rounds
                  (_extract_text_content
                     (Some (last (responses (lm_calls trace)) response0))).
Proof.
  induction 1 as [ | | | remaining rc msgs response calls Hstop Hfail
                   | remaining rc msgs response calls results e Hstop Hdone
                   | remaining rc msgs response calls results next o rest
                       Hstop Hdone Hrest IH ];
    intros response0 Hcur Hstop0 Hquiet Hall.
  - subst. simpl. auto.
  - discriminate.
  - injection Hcur as <-. contradiction.
  - exfalso. destruct Hfail as (pre & name & input & e & -> & _ & _).
    apply (quiet_has_no_offender tool_raised _
             (ToolBatch (S rc) :: pre) (ToolCall name input (inl e)) []
             Hquiet); reflexivity.
  - exfalso. destruct Hdone as (Hcalls & _ & _).
    rewrite round_trace_lm_calls in Hall by exact Hcalls.
    inversion Hall as [|? ? (r & Hr & _) _]; subst. discriminate.
  - destruct Hdone as (Hcalls & Hq & _).
    rewrite round_trace_lm_calls in Hall by exact Hcalls.
    rewrite round_trace_lm_calls, round_trace_batches by exact Hcalls.
    inversion Hall as [|? ? (r & Hr & Hstopr) Hall']; subst.
    simpl in Hr. injection Hr as <-.
    assert (Hquiet' : tools_quiet rest).
    { unfold tools_quiet in *. inversion Hquiet as [|? ? _ Htail]; subst.
      apply Forall_app in Htail. destruct Htail as [_ Htail].
      inversion Htail; assumption. }
    destruct (IH next eq_refl Hstopr Hquiet' Hall') as (Hlen & Hb & Hout).
    split; [simpl; congruence|]. split; [simpl; congruence|].
    rewrite Hout. do 3 f_equal.
    change (responses ((?[q], inr next) :: lm_calls rest))
      with (next :: responses (lm_calls rest)).
    symmetry. apply last_cons_default.
Qed.

End RoundFacts.

(** ** Properties of [generate_response] *)

Lemma run_eta {A : Type} (run : A * World * list Event) :
  exists w', run = (result_of run, w', trace_of run).
Proof. destruct run as [[a w'] t]. exists w'. reflexivity. Qed.

Lemma no_tool_raised_quiet (trace : list Event) :
  no_tool_raised trace = true -> tools_quiet trace.
Proof.
  unfold no_tool_raised, tools_quiet. intro H.
  rewrite forallb_forall in H. apply Forall_forall. intros ev Hin.
  specialize (H ev Hin). destruct (tool_raised ev); [discriminate|reflexivity].
Qed.

Lemma all_request_tool_use_responses (trace : list Event) :
  all_request_tool_use trace = true ->
  Forall (fun call => exists r, snd call = inr r /\ stop_reason r = "tool_use")
         (lm_calls trace).
Proof.
  unfold all_request_tool_use. intro H.
  rewrite forallb_forall in H. apply Forall_forall. intros call Hin.
  specialize (H call Hin). unfold requests_tool_use in H.
  destruct (snd call) as [e|r]; [discriminate|].
  exists r. split; [reflexivity|]. apply String.eqb_eq. exact H.
Qed.

(** Whatever the collaborators do, a run makes at most
    [MAX_TOOL_ROUNDS + 1] LM calls and runs at most [MAX_TOOL_ROUNDS]
    batches. *)
Lemma generate_response_bounds query history tools tm w :
  let run := generate_response self query history tools tm w in
  length (lm_calls (trace_of run)) <= S MAX_TOOL_ROUNDS /\
  length (tool_batches (trace_of run)) <= MAX_TOOL_ROUNDS.
Proof.
  intro run. destruct (run_eta run) as [w' Hrun].
  apply generate_response_run in Hrun.
  inversion Hrun as [e Ho Ht|response Hguard Ho Ht
                     |response o rest Hstop Hwith Hloop Ho Ht].
  - simpl. lia.
  - simpl. lia.
  - apply rounds_run_bounds in Hloop. simpl. lia.
Qed.

(** Once the first LM call has returned a tool-requesting response and a
    tool manager is there, the run returns a string whatever happens next:
    tool failures and later LM failures are not raised. *)
Lemma generate_response_loop_returns query history tools
      (manager : ToolManager World) w :
  let run := generate_response self query history tools (Some manager) w in
  forall request response later,
    lm_calls (trace_of run) = (request, inr response) :: later ->
    stop_reason response = "tool_use" ->
    returned (result_of run) <> None /\
    return_site (result_of run) <> Some lm_failure_error_msg.
Proof.
  intros run request response later Hcalls Hstop.
  destruct (run_eta run) as [w' Hrun].
  apply generate_response_run in Hrun.
  inversion Hrun as [e Ho Ht|response0 Hguard Ho Ht
                     |response0 o rest Hstop0 Hwith Hloop Ho Ht];
    rewrite <- Ht in Hcalls; simpl in Hcalls.
  - discriminate.
  - injection Hcalls as _ <- _. rewrite Hstop in Hguard. discriminate.
  - apply rounds_run_sites in Hloop. destruct Hloop as [Hsite Hret].
    destruct Hret as (site & value & Hout); [discriminate|].
    split; [rewrite Hout; discriminate|exact Hsite].
Qed.

(** C1 (as amended).  In every run with a tool manager in which each LM
    response requests tool use and no tool raises, exactly
    [MAX_TOOL_ROUNDS] (2) tool-execution rounds run, numbered 1 and 2, and
    exactly 3 LM calls are issued: the initial request and one after each
    round.  The run ends at the round cap with the text extracted from the
    last response; a fourth LM call is never issued. *)
Theorem C1_bounded_rounds query history tools (manager : ToolManager World) w :
  let run := generate_response self query history tools (Some manager) w in
  all_request_tool_use (trace_of run) = true ->
  no_tool_raised (trace_of run) = true ->
  tool_batches (trace_of run) = [1; 2] /\
  length (tool_batches (trace_of run)) = MAX_TOOL_ROUNDS /\
  length (lm_calls (trace_of run)) = 3 /\
  return_site (result_of run) = Some max_rounds.
Proof.
  intros run Hall Hquiet. destruct (run_eta run) as [w' Hrun].
  apply all_request_tool_use_responses in Hall.
  apply no_tool_raised_quiet in Hquiet.
  apply generate_response_run in Hrun.
  inversion Hrun as [e Ho Ht|response Hguard Ho Ht
                     |response o rest Hstop Hwith Hloop Ho Ht].
  - exfalso. rewrite <- Ht in Hall. simpl in Hall.
    inversion Hall as [|? ? (r & Hr & _) _]. discriminate.
  - exfalso. rewrite <- Ht in Hall. simpl in Hall.
    inversion Hall as [|? ? (r & Hr & Hstop) _].
    simpl in Hr. injection Hr as <-.
    rewrite Hstop in Hguard. discriminate.
  - rewrite <- Ht in Hall, Hquiet. simpl in Hall.
    inversion Hall as [|? ? _ Hall']. inversion Hquiet as [|? ? _ Hquiet'].
    destruct (rounds_run_all_tool_use _ _ _ _ _ _ _ Hloop response eq_refl
                Hstop Hquiet' Hall') as (Hlen & Hb & Hout).
    simpl. rewrite Hb, Hlen, Hout. repeat split.
Qed.

(** C3 (as amended).  If the [tool_manager] argument is omitted then,
    whatever [tools] is and whatever the LM answers, no batch is started, no
    tool is called, exactly one LM call is made, and when the first content
    element of the response carries text that text is returned. *)
Theorem C3_no_manager_no_execution query history tools w :
  let run := generate_response self query history tools None w in
  tool_batches (trace_of run) = [] /\
  tool_calls (trace_of run) = [] /\
  length (lm_calls (trace_of run)) = 1 /\
  forall request response text rest,
    lm_calls (trace_of run) = [(request, inr response)] ->
    content response = TextBlock text :: rest ->
    result_of run = Return direct_response text.
Proof.
  intro run. destruct (run_eta run) as [w' Hrun].
  apply generate_response_run in Hrun.
  inversion Hrun as [e Ho Ht|response Hguard Ho Ht
                     |response o rest Hstop Hwith Hloop Ho Ht].
  - repeat split. intros ? ? ? ? Hcalls. discriminate.
  - repeat split. intros request r text rest Hcalls Hcontent.
    simpl in Hcalls. injection Hcalls as _ <-.
    unfold first_block_text. rewrite Hcontent. reflexivity.
  - discriminate.
Qed.

(** C4.  When an LM call after the first one raises, the run ends there: no
    further LM call follows, nothing is raised to the caller, and the value
    returned is the text extracted from the last response obtained, the one
    of the call just before.  A response has always been obtained at that
    point, so the formatted error string is not what comes back. *)
Theorem C4_later_lm_failure_recovered query history tools tm w :
  let run := generate_response self query history tools tm w in
  forall pre earlier request e post,
    lm_calls (trace_of run) = pre ++ earlier :: (request, inl e) :: post ->
    post = [] /\
    exists previous,
      snd earlier = inr previous /\
      result_of run = Return lm_failure_extracted
                        (_extract_text_content (Some previous)).
Proof.
  intros run pre earlier request e post Hcalls.
  destruct (run_eta run) as [w' Hrun].
  apply generate_response_run in Hrun.
  inversion Hrun as [e0 Ho Ht|response Hguard Ho Ht
                     |response o rest Hstop Hwith Hloop Ho Ht];
    rewrite <- Ht in Hcalls; simpl in Hcalls.
  - destruct pre as [|? [|? ?]]; discriminate.
  - destruct pre as [|? [|? ?]]; discriminate.
  - destruct (rounds_run_consecutive _ _ _ _ _ _ _ Hloop response
                (api_params self query history tools) eq_refl eq_refl
                pre earlier (request, inl e) post Hcalls)
      as (previous & results & Hprev & _ & _ & _ & Hfail).
    destruct (Hfail e eq_refl) as [Hpost Hout].
    split; [exact Hpost|]. exists previous. auto.
Qed.

(** C5.  Fail-fast on a tool error.  In [_execute_all_tools], a tool call
    that raises is the last event of the batch (the remaining tool-use
    blocks are not executed) and the executor reports [([], False)].  In
    [generate_response], a tool call that raises is the last event of the
    whole run, so no further tool call and no further LM request follow, and
    the run returns the fixed apology string [TOOL_FAILURE_TEXT], that is
    'I encountered an error while searching for information. Let me provide
    what I can from my knowledge.', instead of raising. *)
Theorem C5_tool_failure_fail_fast :
  (forall response (manager : ToolManager World) round_count w pre ev post,
      let batch := _execute_all_tools response manager round_count w in
      trace_of batch = pre ++ ev :: post ->
      tool_raised ev = true ->
      post = [] /\ result_of batch = ([], false))
  /\
  (forall query history tools tm w pre ev post,
      let run := generate_response self query history tools tm w in
      trace_of run = pre ++ ev :: post ->
      tool_raised ev = true ->
      post = [] /\ result_of run = Return tool_failure TOOL_FAILURE_TEXT).
Proof.
  split.
  - intros response manager round_count w pre ev post batch Heq Hbad.
    destruct (run_eta batch) as [w' Hrun].
    destruct (result_of batch) as [results ok] eqn:Hres.
    apply execute_all_tools_spec in Hrun.
    destruct Hrun as (calls & Ht & _ & Hok).
    rewrite Ht in Heq. destruct ok.
    + exfalso. destruct Hok as [_ Hquiet].
      assert (Hall : tools_quiet (ToolBatch round_count :: calls))
        by (constructor; [reflexivity|exact Hquiet]).
      exact (quiet_has_no_offender tool_raised _ _ _ _ Hall Heq Hbad).
    + destruct Hok as (-> & pre0 & name & input & e & -> & Hquiet).
      assert (Hprefix : tools_quiet (ToolBatch round_count :: pre0))
        by (constructor; [reflexivity|exact Hquiet]).
      change (ToolBatch round_count :: pre0 ++ [ToolCall name input (inl e)])
        with ((ToolBatch round_count :: pre0) ++ [ToolCall name input (inl e)])
        in Heq.
      destruct (offender_is_last tool_raised _ _ _ _ _ Hprefix Hbad Heq)
        as (-> & _ & _).
      auto.
  - intros query history tools tm w pre ev post run Heq Hbad.
    destruct (run_eta run) as [w' Hrun].
    apply generate_response_run in Hrun.
    inversion Hrun as [e Ho Ht|response Hguard Ho Ht
                       |response o rest Hstop Hwith Hloop Ho Ht];
      rewrite <- Ht in Heq.
    + exfalso. destruct pre as [|? [|? ?]]; inversion Heq; subst; discriminate.
    + exfalso. destruct pre as [|? [|? ?]]; inversion Heq; subst; discriminate.
    + destruct pre as [|first pre].
      * exfalso. inversion Heq; subst. discriminate.
      * injection Heq as _ Heq.
        exact (rounds_run_tool_raise _ _ _ _ _ _ _ Hloop pre ev post Heq Hbad).
Qed.

(** C6.  Ordering.  Whenever an LM call that returned response [r] is
    followed by another LM call, the later request carries the messages of
    the earlier one, then the assistant turn with the content of [r], then,
    for every tool-use block of [r], a single user message whose results
    have exactly the ids of the tool-use blocks of [r], in order; so the
    result for each id [T] is in the conversation before the next request is
    sent. *)
Theorem C6_results_precede_next_request query history tools tm w :
  let run := generate_response self query history tools tm w in
  forall pre request r request' out post T,
    lm_calls (trace_of run)
      = pre ++ (request, inr r) :: (request', out) :: post ->
    In T (tool_use_ids (content r)) ->
    exists results,
      messages request'
        = messages request
            ++ [mkMessage assistant (Blocks (content r));
                mkMessage user (Results results)] /\
      map tool_use_id results = tool_use_ids (content r) /\
      In T (map tool_use_id results).
Proof.
  intros run pre request r request' out post T Hcalls HT.
  destruct (run_eta run) as [w' Hrun].
  apply generate_response_run in Hrun.
  inversion Hrun as [e0 Ho Ht|response Hguard Ho Ht
                     |response o rest Hstop Hwith Hloop Ho Ht];
    rewrite <- Ht in Hcalls; simpl in Hcalls.
  - destruct pre as [|? [|? ?]]; discriminate.
  - destruct pre as [|? [|? ?]]; discriminate.
  - destruct (rounds_run_consecutive _ _ _ _ _ _ _ Hloop response
                (api_params self query history tools) eq_refl eq_refl
                pre (request, inr r) (request', out) post Hcalls)
      as (r' & results & Hr & _ & Hids & Hreq & _).
    simpl in Hr, Hreq. injection Hr as <-.
    exists results. rewrite Hreq, Hids. split; [|auto].
    destruct results as [|res results].
    + simpl in Hids. rewrite <- Hids in HT. contradiction.
    + simpl. rewrite <- app_assoc. reflexivity.
Qed.

Lemma system_content_with_history (text : string) :
  text <> EmptyString ->
  system_content (Some text)
    = (SYSTEM_PROMPT ++ nl ++ nl ++ "Previous conversation:" ++ nl ++ text)%string.
Proof.
  intro Hne. unfold system_content.
  destruct text as [|c text]; [contradiction|reflexivity].
Qed.

(** C7 (as amended).  The first request is [api_params]; its system content
    is the system prompt followed, when a non-empty history was supplied, by
    the literal history text.  Every request after the first reuses exactly
    that system content.  When a non-empty tools list was supplied, every
    later request carries the same tools list with [tool_choice] set to
    auto; when none was supplied, a later request carries an empty tools
    list and [tool_choice] bound to [None]. *)
Theorem C7_later_requests_keep_system_and_tools query history schemas tm w :
  let run := generate_response self query history schemas tm w in
  let first := api_params self query history schemas in
  hd_error (lm_requests (trace_of run)) = Some first /\
  (forall text,
      history = Some text -> text <> EmptyString ->
      system first
        = (SYSTEM_PROMPT ++ nl ++ nl ++ "Previous conversation:" ++ nl
             ++ text)%string) /\
  Forall (fun request =>
            system request = system first /\
            (truthy_list schemas = true ->
             tools request = schemas /\
             tools request = tools first /\
             tool_choice request = Some (Some choice_auto)) /\
            (truthy_list schemas = false ->
             tools request = Some [] /\
             tool_choice request = Some None))
         (later_requests (trace_of run)).
Proof.
  intros run first. destruct (run_eta run) as [w' Hrun].
  apply generate_response_run in Hrun. fold first in Hrun.
  split; [|split].
  - inversion Hrun; reflexivity.
  - intros text -> Hne. apply system_content_with_history. exact Hne.
  - inversion Hrun as [e Ho Ht|response Hguard Ho Ht
                       |response o rest Hstop Hwith Hloop Ho Ht].
    + constructor.
    + constructor.
    + apply rounds_run_requests in Hloop.
      unfold later_requests, lm_requests in *. simpl.
      eapply Forall_impl; [|exact Hloop].
      intros request ->. split; [reflexivity|].
      unfold first, api_params. cbn [tools tool_choice next_params].
      destruct schemas as [[|schema schemas]|]; cbn [truthy_list];
        split; intro Htruthy; try discriminate; repeat split.
Qed.

(** Immediate termination on a text-first response.  If the first LM call
    returns a response whose [stop_reason] is ["end_turn"], then no batch is
    started and no tool is called, and that LM call is the only one.  When
    the first content element of the response is a text block, its text is
    returned unchanged; on any other content the direct return raises (see
    the runs at the end). *)
Lemma immediate_termination_text_first query history tools tm w :
  let run := generate_response self query history tools tm w in
  forall request response later,
    lm_calls (trace_of run) = (request, inr response) :: later ->
    stop_reason response = "end_turn" ->
    tool_batches (trace_of run) = [] /\
    tool_calls (trace_of run) = [] /\
    later = [] /\
    forall text rest,
      content response = TextBlock text :: rest ->
      result_of run = Return direct_response text.
Proof.
  intros run request response later Hcalls Hend.
  destruct (run_eta run) as [w' Hrun].
  apply generate_response_run in Hrun.
  inversion Hrun as [e Ho Ht|response0 Hguard Ho Ht
                     |response0 o rest Hstop Hwith Hloop Ho Ht];
    rewrite <- Ht in Hcalls; simpl in Hcalls.
  - discriminate.
  - injection Hcalls as _ <- <-. repeat split.
    intros text rest Hcontent. unfold first_block_text.
    rewrite Hcontent. reflexivity.
  - injection Hcalls as _ <- _. rewrite Hend in Hstop. discriminate.
Qed.

(** C10.  In [_handle_tool_execution], started on any value, the run never
    leaves through the branch of the exception handler that returns the
    formatted [error_msg].  The handler only runs once the loop has read
    [stop_reason] off [current_response], so that variable holds a response
    object there: when the first LM call of the loop raises, the result is
    the text extracted from the initial response; when a later LM call
    raises, it is the text extracted from the response of the call before.
    In both cases the failing call is the last one. *)
Theorem C10_error_msg_branch_unreachable
        (initial : option Response) (base : Request)
        (manager : ToolManager World) w :
  let run := _handle_tool_execution self initial base manager w in
  return_site (result_of run) <> Some lm_failure_error_msg /\
  (forall request e post,
      lm_calls (trace_of run) = (request, inl e) :: post ->
      post = [] /\
      exists response,
        initial = Some response /\
        result_of run = Return lm_failure_extracted
                          (_extract_text_content (Some response))) /\
  (forall pre earlier request e post,
      lm_calls (trace_of run) = pre ++ earlier :: (request, inl e) :: post ->
      post = [] /\
      exists previous,
        snd earlier = inr previous /\
        result_of run = Return lm_failure_extracted
                          (_extract_text_content (Some previous))).
Proof.
  intro run. destruct (run_eta run) as [w' Hrun].
  apply tool_rounds_run in Hrun.
  split; [|split].
  - apply rounds_run_sites in Hrun. tauto.
  - intros request e post Hcalls.
    destruct initial as [response|].
    + destruct (rounds_run_consecutive _ _ _ _ _ _ _ Hrun response base
                  eq_refl eq_refl [] (base, inr response) (request, inl e) post)
        as (r & results & Hr & _ & _ & _ & Hfail).
      { simpl. rewrite Hcalls. reflexivity. }
      simpl in Hr. injection Hr as <-.
      destruct (Hfail e eq_refl) as [Hpost Hout].
      split; [exact Hpost|]. exists response. auto.
    + unfold run, _handle_tool_execution in Hcalls. simpl in Hcalls.
      discriminate.
  - intros pre earlier request e post Hcalls.
    destruct initial as [response|].
    + destruct (rounds_run_consecutive _ _ _ _ _ _ _ Hrun response base
                  eq_refl eq_refl ((base, inr response) :: pre) earlier
                  (request, inl e) post)
        as (r & results & Hr & _ & _ & _ & Hfail).
      { simpl. rewrite Hcalls. reflexivity. }
      destruct (Hfail e eq_refl) as [Hpost Hout].
      split; [exact Hpost|]. exists r. auto.
    + unfold run, _handle_tool_execution in Hcalls. simpl in Hcalls.
      destruct pre; discriminate.
Qed.

(** ** Further properties of the engine *)

(** *** The batch executor, call by call *)

Lemma execute_blocks_calls (tm : ToolManager World) :
  forall blocks acc w res w' trace,
    execute_blocks tm blocks acc w = (res, w', trace) ->
    exists rest,
      tool_requests blocks = map fst (tool_calls trace) ++ rest /\
      match res with
      | inr results =>
          rest = [] /\
          results = acc ++ map (fun p => mkToolResult (fst p) (snd p))
                               (combine (tool_use_ids blocks)
                                        (outputs (tool_calls trace)))
      | inl _ => True
      end.
Proof.
  induction blocks as [|b blocks IH]; intros acc w res w' trace Hrun.
  - inversion Hrun; subst. exists []. simpl. rewrite app_nil_r. auto.
  - destruct b as [text|id name input|]; simpl in Hrun.
    + apply IH in Hrun. exact Hrun.
    + unfold bind, execute_tool in Hrun.
      destruct (tm name input w) as [out w1].
      destruct out as [e|tool_result].
      * inversion Hrun; subst.
        exists (tool_requests blocks). simpl. auto.
      * destruct (execute_blocks tm blocks
                    (acc ++ [mkToolResult id tool_result]) w1)
          as [[res1 w2] t2] eqn:Hrest.
        inversion Hrun; subst. apply IH in Hrest.
        destruct Hrest as (rest & Hreq & Hres).
        exists rest. split.
        -- simpl. rewrite Hreq. reflexivity.
        -- destruct res as [e|results]; [exact I|].
           destruct Hres as [-> ->]. split; [reflexivity|].
           simpl. rewrite <- app_assoc. reflexivity.
    + apply IH in Hrun. exact Hrun.
Qed.

Lemma execute_all_tools_calls (tm : ToolManager World) :
  forall response round_count w results ok w' trace,
    _execute_all_tools response tm round_count w = ((results, ok), w', trace) ->
    exists events rest,
      trace = ToolBatch round_count :: events /\
      tool_requests (content response) = map fst (tool_calls events) ++ rest /\
      (ok = true ->
       rest = [] /\
       results = map (fun p => mkToolResult (fst p) (snd p))
                     (combine (tool_use_ids (content response))
                              (outputs (tool_calls events)))).
Proof.
  intros response round_count w results ok w' trace Hrun.
  unfold _execute_all_tools, bind, emit in Hrun.
  destruct (execute_blocks tm (content response) [] w)
    as [[res w1] events] eqn:Hblocks.
  apply execute_blocks_calls in Hblocks.
  destruct Hblocks as (rest & Hreq & Hres).
  exists events, rest.
  destruct res as [e|tool_results]; inversion Hrun; subst; clear Hrun;
    rewrite app_nil_r; (split; [reflexivity|split; [exact Hreq|]]).
  - discriminate.
  - intros _. exact Hres.
Qed.

(** X3.  [_execute_all_tools] calls the tools the response asks for, in the
    order of its tool-use blocks, and nothing else: the calls made are a
    prefix of the requested ones.  When it reports success every requested
    call was made, and the results pair the id of each tool-use block with
    the string its call returned, in order.  When it reports failure the
    result list is empty, whatever the earlier calls of the batch
    returned. *)
Theorem X3_batch_calls_what_was_requested
        (response : Response) (manager : ToolManager World)
        (round_count : nat) (w : World) :
  let batch := _execute_all_tools response manager round_count w in
  let calls := tool_calls (trace_of batch) in
  tool_batches (trace_of batch) = [round_count] /\
  lm_calls (trace_of batch) = [] /\
  (exists rest,
      tool_requests (content response) = map fst calls ++ rest) /\
  (snd (result_of batch) = true ->
   map fst calls = tool_requests (content response) /\
   fst (result_of batch)
     = map (fun p => mkToolResult (fst p) (snd p))
           (combine (tool_use_ids (content response)) (outputs calls)) /\
   map tool_use_id (fst (result_of batch))
     = tool_use_ids (content response)) /\
  (snd (result_of batch) = false -> fst (result_of batch) = []).
Proof.
  intros batch calls. subst calls.
  destruct (run_eta batch) as [w' Hbatch].
  destruct (result_of batch) as [results ok] eqn:Hres.
  unfold batch in Hbatch.
  destruct (execute_all_tools_spec manager _ _ _ _ _ _ _ Hbatch)
    as (events & Htrace & Hcalls & Hok).
  destruct (execute_all_tools_calls manager _ _ _ _ _ _ _ Hbatch)
    as (events' & rest & Htrace' & Hreq & Hdone).
  fold batch in Htrace, Htrace'.
  assert (events' = events) by congruence. subst events'.
  destruct (only_tool_calls_no_lm events Hcalls) as [Hlm Hb].
  rewrite Htrace. cbn [tool_batches lm_calls tool_calls fst snd].
  rewrite Hlm, Hb. split; [reflexivity|]. split; [reflexivity|].
  split; [exists rest; exact Hreq|]. split.
  - intros ->. destruct (Hdone eq_refl) as [-> Hresults].
    rewrite app_nil_r in Hreq. destruct Hok as [Hids _]. auto.
  - intros ->. destruct Hok as [-> _]. reflexivity.
Qed.

(** *** More facts on the shape of a run *)

Lemma last_map_some {A : Type} (l : list A) (d : A) :
  last (map Some l) (Some d) = Some (last l d).
Proof.
  revert d. induction l as [|a l IH]; intro d; [reflexivity|].
  change (map Some (a :: l)) with (Some a :: map Some l).
  rewrite !last_cons_default. apply IH.
Qed.

Lemma rounds_run_returns_last_extraction (base : Request) :
  forall remaining round_count msgs current outcome trace,
    rounds_run self base remaining round_count msgs current outcome trace ->
    forall site value,
      outcome = Return site value ->
      (site = tool_failure /\ value = TOOL_FAILURE_TEXT) \/
      (site <> tool_failure /\
       value = _extract_text_content
                 (last (map Some (responses (lm_calls trace))) current)).
Proof.
  induction 1 as [ | | | remaining rc msgs response calls Hstop Hfail
                   | remaining rc msgs response calls results e Hstop Hdone
                   | remaining rc msgs response calls results next o rest
                       Hstop Hdone Hrest IH ];
    intros site value Hout.
  - injection Hout as <- <-. right. split; [discriminate|reflexivity].
  - discriminate.
  - injection Hout as <- <-. right. split; [discriminate|reflexivity].
  - injection Hout as <- <-. left. auto.
  - injection Hout as <- <-. right. split; [discriminate|].
    destruct Hdone as (Hcalls & _ & _).
    rewrite round_trace_lm_calls by exact Hcalls. reflexivity.
  - destruct Hdone as (Hcalls & _ & _).
    rewrite round_trace_lm_calls by exact Hcalls.
    destruct (IH site value Hout) as [Hfail|[Hsite Hvalue]]; [left; exact Hfail|].
    right. split; [exact Hsite|]. rewrite Hvalue.
    change (responses ((?[q], inr next) :: lm_calls rest))
      with (next :: responses (lm_calls rest)).
    change (map Some (next :: responses (lm_calls rest)))
      with (Some next :: map Some (responses (lm_calls rest))).
    rewrite last_cons_default. reflexivity.
Qed.

Lemma rounds_run_no_tool_request (base : Request) :
  forall remaining round_count msgs response outcome trace,
    rounds_run self base remaining round_count msgs (Some response)
               outcome trace ->
    stop_reason response <> "tool_use" ->
    trace = [] /\
    exists site,
      outcome = Return site (_extract_text_content (Some response)) /\
      (site = no_tool_use \/ site = max_rounds).
Proof.
  intros remaining round_count msgs response outcome trace Hrun Hstop.
  inversion Hrun; subst; try contradiction.
  - split; [reflexivity|]. exists max_rounds. auto.
  - split; [reflexivity|]. exists no_tool_use. auto.
Qed.

Lemma batch_prefix_has_no_lm_call (n : nat) (calls : list Event) :
  Forall (fun ev => is_tool_call ev = true) calls ->
  Forall (fun ev => is_lm_call ev = false) (ToolBatch n :: calls).
Proof.
  intro Hcalls. constructor; [reflexivity|].
  eapply Forall_impl; [|exact Hcalls].
  intros ev Hev. destruct ev; simpl in *; try discriminate; reflexivity.
Qed.

Lemma rounds_run_non_tool_response_ends (base : Request) :
  forall remaining round_count msgs current outcome trace,
    rounds_run self base remaining round_count msgs current outcome trace ->
    forall before request response after,
      trace = before ++ LMCall request (inr response) :: after ->
      stop_reason response <> "tool_use" ->
      after = [] /\
      exists site,
        outcome = Return site (_extract_text_content (Some response)) /\
        (site = no_tool_use \/ site = max_rounds).
Proof.
  induction 1 as [ | | | remaining rc msgs response calls Hstop Hfail
                   | remaining rc msgs response calls results e Hstop Hdone
                   | remaining rc msgs response calls results next o rest
                       Hstop Hdone Hrest IH ];
    intros before request r after Heq Hnot;
    assert (Hbad : is_lm_call (LMCall request (inr r)) = true) by reflexivity.
  - destruct before; discriminate.
  - destruct before; discriminate.
  - destruct before; discriminate.
  - exfalso. apply failed_batch_tool_calls in Hfail.
    exact (quiet_has_no_offender is_lm_call _ _ _ _
             (batch_prefix_has_no_lm_call (S rc) calls Hfail) Heq Hbad).
  - exfalso. destruct Hdone as (Hcalls & _ & _).
    set (q := next_params self _ base) in Heq.
    change (ToolBatch (S rc) :: calls ++ [LMCall q (inl e)])
      with ((ToolBatch (S rc) :: calls) ++ [LMCall q (inl e)]) in Heq.
    destruct (offender_is_last is_lm_call _ _ _ _ _
                (batch_prefix_has_no_lm_call (S rc) calls Hcalls)
                Hbad Heq) as (_ & _ & Hev).
    discriminate.
  - destruct Hdone as (Hcalls & _ & _).
    set (q := next_params self _ base) in Heq.
    change (ToolBatch (S rc) :: calls ++ LMCall q (inr next) :: rest)
      with ((ToolBatch (S rc) :: calls) ++ LMCall q (inr next) :: rest)
      in Heq.
    destruct (offender_after_quiet_prefix is_lm_call _ _ _ _ _
                (batch_prefix_has_no_lm_call (S rc) calls Hcalls)
                Hbad Heq) as (middle & _ & Hrest').
    destruct middle as [|ev middle].
    + injection Hrest' as _ <- <-.
      destruct (rounds_run_no_tool_request _ _ _ _ _ _ _ Hrest Hnot)
        as [-> Hsite].
      auto.
    + injection Hrest' as _ Hrest'. eapply IH; eassumption.
Qed.

Lemma rounds_run_counts (base : Request) :
  forall remaining round_count msgs current outcome trace,
    rounds_run self base remaining round_count msgs current outcome trace ->
    tool_batches trace = seq (S round_count) (length (tool_batches trace)) /\
    length (lm_calls trace)
      + (if ended_by_tool_failure outcome then 1 else 0)
      = length (tool_batches trace).
Proof.
  induction 1 as [ | | | remaining rc msgs response calls Hstop Hfail
                   | remaining rc msgs response calls results e Hstop Hdone
                   | remaining rc msgs response calls results next o rest
                       Hstop Hdone Hrest IH ].
  - auto.
  - auto.
  - auto.
  - destruct (failed_round_trace (S rc) calls Hfail) as [-> ->]. auto.
  - destruct Hdone as (Hcalls & _ & _).
    rewrite round_trace_lm_calls, round_trace_batches by exact Hcalls. auto.
  - destruct Hdone as (Hcalls & _ & _).
    rewrite round_trace_lm_calls, round_trace_batches by exact Hcalls.
    destruct IH as [Hseq Hlen]. simpl. rewrite <- Hseq. split; [reflexivity|].
    lia.
Qed.

Lemma round_messages_tail (msgs : list Message) (response : Response)
      (results : list ToolResult) :
  exists tail,
    round_messages msgs response results = msgs ++ tail /\
    tail <> [] /\
    forallb is_round_message tail = true /\
    length tail <= 2.
Proof.
  destruct results as [|res results]; simpl.
  - exists [mkMessage assistant (Blocks (content response))].
    repeat split; [discriminate|simpl; lia].
  - exists [mkMessage assistant (Blocks (content response));
            mkMessage user (Results (res :: results))].
    rewrite <- app_assoc. repeat split; [discriminate|simpl; lia].
Qed.

Lemma rounds_run_messages (base : Request) :
  forall remaining round_count msgs current outcome trace,
    rounds_run self base remaining round_count msgs current outcome trace ->
    Forall (fun request =>
              exists tail,
                messages request = msgs ++ tail /\
                tail <> [] /\
                forallb is_round_message tail = true /\
                length tail <= 2 * remaining)
           (lm_requests trace).
Proof.
  unfold lm_requests.
  induction 1 as [ | | | remaining rc msgs response calls Hstop Hfail
                   | remaining rc msgs response calls results e Hstop Hdone
                   | remaining rc msgs response calls results next o rest
                       Hstop Hdone Hrest IH ].
  - constructor.
  - constructor.
  - constructor.
  - destruct (failed_round_trace (S rc) calls Hfail) as [-> _]. constructor.
  - destruct Hdone as (Hcalls & _ & _).
    rewrite round_trace_lm_calls by exact Hcalls.
    destruct (round_messages_tail msgs response results)
      as (tail & Htail & Hne & Hround & Hlen).
    constructor; [|constructor].
    exists tail. simpl. repeat split; auto. lia.
  - destruct Hdone as (Hcalls & _ & _).
    rewrite round_trace_lm_calls by exact Hcalls.
    destruct (round_messages_tail msgs response results)
      as (tail & Htail & Hne & Hround & Hlen).
    constructor.
    + exists tail. simpl. repeat split; auto. lia.
    + eapply Forall_impl; [|exact IH].
      intros request (tail' & Hmsgs & Hne' & Hround' & Hlen').
      exists (tail ++ tail'). rewrite Hmsgs, Htail, <- app_assoc.
      repeat split.
      * destruct tail; [contradiction|discriminate].
      * rewrite forallb_app, Hround, Hround'. reflexivity.
      * rewrite length_app. lia.
Qed.

(** *** Properties of whole runs *)

Lemma first_block_text_agrees_with_extractor (response : Response) :
  forall site value,
    first_block_text response = Return site value ->
    site = direct_response /\
    value = _extract_text_content (Some response).
Proof.
  intros site value. unfold first_block_text, _extract_text_content.
  destruct (content response) as [|[text|id name input|] rest];
    intro H; inversion H; subst; auto.
Qed.

Lemma last_response_cons (request : Request) (response : Response)
      (rest : list Event) :
  last_response (LMCall request (inr response) :: rest)
    = Some (last (responses (lm_calls rest)) response).
Proof.
  unfold last_response. cbn [lm_calls].
  change (responses ((request, inr response) :: lm_calls rest))
    with (response :: responses (lm_calls rest)).
  cbn [map]. rewrite last_cons_default. apply last_map_some.
Qed.

(** X1.  Whatever string [generate_response] returns is either the fixed
    apology for a failed tool batch, or the text [_extract_text_content]
    extracts from the last response the LM delivered in the run.  In
    particular the text of an earlier response never comes back once a
    later response has been obtained. *)
Theorem X1_returned_text_is_last_extraction query history tools tm w :
  let run := generate_response self query history tools tm w in
  forall site value,
    result_of run = Return site value ->
    (site = tool_failure /\ value = TOOL_FAILURE_TEXT) \/
    (site <> tool_failure /\
     exists response,
       last_response (trace_of run) = Some response /\
       value = _extract_text_content (Some response)).
Proof.
  intros run site value Hout. destruct (run_eta run) as [w' Hrun].
  apply generate_response_run in Hrun.
  inversion Hrun as [e Ho Ht|response Hguard Ho Ht
                     |response o rest Hstop Hwith Hloop Ho Ht].
  - rewrite <- Ho in Hout. discriminate.
  - rewrite <- Ho in Hout.
    apply first_block_text_agrees_with_extractor in Hout.
    destruct Hout as [-> ->]. right. split; [discriminate|].
    exists response. split; reflexivity.
  - subst o.
    destruct (rounds_run_returns_last_extraction _ _ _ _ _ _ _ Hloop
                site value Hout) as [Hfail|[Hsite Hvalue]];
      [left; exact Hfail|].
    right. split; [exact Hsite|].
    exists (last (responses (lm_calls rest)) response).
    rewrite Hvalue, last_map_some. split; [|reflexivity].
    apply last_response_cons.
Qed.

Lemma extract_empty_text (response : option Response) :
  _extract_text_content response = EmptyString ->
  exists r,
    response = Some r /\ first_text_bearing (content r) = Some EmptyString.
Proof.
  destruct response as [r|]; [|discriminate].
  intro Hempty. exists r. split; [reflexivity|].
  unfold _extract_text_content in Hempty.
  rewrite scan_text_blocks_first_text in Hempty.
  destruct (content r) as [|[text|id name input|] rest] eqn:Hc;
    try discriminate.
  - subst text. reflexivity.
  - destruct (first_text_bearing (ToolUseBlock id name input :: rest));
      [subst; reflexivity|discriminate].
  - destruct (first_text_bearing (OpaqueBlock :: rest));
      [subst; reflexivity|discriminate].
Qed.

(** X11.  The engine always answers something unless the LM itself sent an
    empty text: the apology and the two fallback strings are not empty, so
    the returned string is empty only when the first text-bearing block of
    the last response delivered is the empty string. *)
Theorem X11_empty_answer_only_from_empty_text query history tools tm w :
  let run := generate_response self query history tools tm w in
  returned (result_of run) = Some EmptyString ->
  exists response,
    last_response (trace_of run) = Some response /\
    first_text_bearing (content response) = Some EmptyString.
Proof.
  intros run Hempty. destruct (run_eta run) as [w' Hrun].
  apply generate_response_run in Hrun.
  inversion Hrun as [e Ho Ht|response Hguard Ho Ht
                     |response o rest Hstop Hwith Hloop Ho Ht];
    rewrite <- Ho in Hempty.
  - discriminate.
  - exists response. split; [reflexivity|].
    unfold first_block_text in Hempty.
    destruct (content response) as [|[text|id name input|] tail];
      try discriminate.
    injection Hempty as ->. reflexivity.
  - destruct o as [site value|e]; [|discriminate].
    injection Hempty as ->.
    destruct (rounds_run_returns_last_extraction _ _ _ _ _ _ _ Hloop
                site EmptyString (eq_sym Ho)) as [[_ Habs]|[_ Hvalue]];
      [discriminate|].
    rewrite last_map_some in Hvalue. symmetry in Hvalue.
    apply extract_empty_text in Hvalue.
    destruct Hvalue as (r & Hr & Hfirst). injection Hr as <-.
    exists (last (responses (lm_calls rest)) response).
    split; [apply last_response_cons|exact Hfirst].
Qed.

(** X2.  [generate_response] raises in two situations only, both before the
    round loop: the first LM call raised (that exception reaches the
    caller), or the response is answered directly and its content is empty
    ([IndexError]) or starts with a block without text (an exception of
    class [AttributeError]).
    In both, that LM call is the only event of the run.  Conversely, when
    the first response starts with a text block the run returns a string,
    whatever the tools and the later LM calls do. *)
Theorem X2_raises_only_before_the_loop query history schemas
        (tm : option (ToolManager World)) w :
  let run := generate_response self query history schemas tm w in
  let first := api_params self query history schemas in
  (forall e,
      result_of run = Raise e ->
      trace_of run = [LMCall first (inl e)] \/
      exists response,
        trace_of run = [LMCall first (inr response)] /\
        (stop_reason response <> "tool_use" \/ tm = None) /\
        ((content response = [] /\ e = IndexError) \/
         (exists b rest,
             content response = b :: rest /\ has_text b = false /\
             exn_class e = "AttributeError"))) /\
  (forall request response later text rest,
      lm_calls (trace_of run) = (request, inr response) :: later ->
      content response = TextBlock text :: rest ->
      returned (result_of run) <> None).
Proof.
  intros run first. destruct (run_eta run) as [w' Hrun].
  apply generate_response_run in Hrun. fold first in Hrun.
  inversion Hrun as [e0 Ho Ht|response Hguard Ho Ht
                     |response o rest Hstop Hwith Hloop Ho Ht]; split.
  - intros e He. injection He as <-. left. reflexivity.
  - intros request response later text rest Hcalls. discriminate.
  - intros e He. right. exists response. split; [reflexivity|]. split.
    + destruct tm; [|right; reflexivity]. left.
      rewrite andb_true_r in Hguard. apply String.eqb_neq. exact Hguard.
    + unfold first_block_text in He.
      destruct (content response) as [|[text|id name input|] rest];
        inversion He; subst.
      * left. auto.
      * right. exists (ToolUseBlock id name input), rest. repeat split.
      * right. exists OpaqueBlock, rest. repeat split.
  - intros request r later text rest Hcalls Hcontent.
    simpl in Hcalls. injection Hcalls as _ <- _.
    unfold first_block_text. rewrite Hcontent. discriminate.
  - intros e He. exfalso.
    apply rounds_run_sites in Hloop. destruct Hloop as [_ Hret].
    destruct Hret as (site & value & Hout); [discriminate|]. congruence.
  - intros request r later text rest' _ _.
    apply rounds_run_sites in Hloop. destruct Hloop as [_ Hret].
    destruct Hret as (site & value & Hout); [discriminate|].
    rewrite Hout. discriminate.
Qed.

(** X4.  A response that does not request tool use ends the run at once:
    the LM call that returned it is the last event, so no tool is called and
    no request is sent after it.  If it is the first response the direct
    return [response.content[0].text] decides the result; if it came from a
    later round the run returns the text extracted from it. *)
Theorem X4_non_tool_response_ends_run query history tools tm w :
  let run := generate_response self query history tools tm w in
  forall before request response after,
    trace_of run = before ++ LMCall request (inr response) :: after ->
    stop_reason response <> "tool_use" ->
    after = [] /\
    (before = [] -> result_of run = first_block_text response) /\
    (before <> [] ->
     exists site,
       result_of run = Return site (_extract_text_content (Some response)) /\
       (site = no_tool_use \/ site = max_rounds)).
Proof.
  intros run before request r after Heq Hnot.
  destruct (run_eta run) as [w' Hrun].
  apply generate_response_run in Hrun.
  inversion Hrun as [e0 Ho Ht|response Hguard Ho Ht
                     |response o rest Hstop Hwith Hloop Ho Ht];
    rewrite <- Ht in Heq.
  - destruct before as [|? [|? ?]]; discriminate.
  - destruct before as [|? [|? ?]]; try discriminate.
    injection Heq as _ <- <-.
    split; [reflexivity|]. split; [reflexivity|]. intro H. contradiction.
  - destruct before as [|ev before].
    + injection Heq as _ <- _. contradiction.
    + injection Heq as _ Heq.
      destruct (rounds_run_non_tool_response_ends _ _ _ _ _ _ _ Hloop
                  before request r after Heq Hnot) as [Hafter Hsite].
      split; [exact Hafter|]. split; [discriminate|]. intros _. exact Hsite.
Qed.

(** X5.  The conversation is append-only.  An LM call is followed by
    another only if its response requested tool use; the later request then
    carries the earlier messages followed by the assistant turn with the
    content of the response.  When that response contains no tool-use
    block, nothing else is appended: no user message with an empty result
    list is sent. *)
Theorem X5_conversation_is_append_only query history tools tm w :
  let run := generate_response self query history tools tm w in
  forall pre request r request' out post,
    lm_calls (trace_of run)
      = pre ++ (request, inr r) :: (request', out) :: post ->
    stop_reason r = "tool_use" /\
    (exists tail,
        messages request'
          = messages request
              ++ mkMessage assistant (Blocks (content r)) :: tail) /\
    (tool_use_ids (content r) = [] ->
     messages request'
       = messages request ++ [mkMessage assistant (Blocks (content r))]).
Proof.
  intros run pre request r request' out post Hcalls.
  destruct (run_eta run) as [w' Hrun].
  apply generate_response_run in Hrun.
  inversion Hrun as [e0 Ho Ht|response Hguard Ho Ht
                     |response o rest Hstop Hwith Hloop Ho Ht];
    rewrite <- Ht in Hcalls; simpl in Hcalls.
  - destruct pre as [|? [|? ?]]; discriminate.
  - destruct pre as [|? [|? ?]]; discriminate.
  - destruct (rounds_run_consecutive _ _ _ _ _ _ _ Hloop response
                (api_params self query history tools) eq_refl eq_refl
                pre (request, inr r) (request', out) post Hcalls)
      as (r' & results & Hr & Hstop' & Hids & Hreq & _).
    simpl in Hr, Hreq. injection Hr as <-.
    split; [exact Hstop'|]. rewrite Hreq. cbn [messages next_params]. split.
    + destruct results as [|res results]; simpl.
      * exists []. reflexivity.
      * exists [mkMessage user (Results (res :: results))].
        rewrite <- app_assoc. reflexivity.
    + intro Hnone. rewrite Hnone in Hids.
      apply map_eq_nil in Hids. subst results. reflexivity.
Qed.

(** X6.  Shape of the conversation in every request of a run.  The first
    request carries exactly one message, the user's query.  Every request
    starts with that message, and whatever follows it are round messages
    only: assistant turns made of content blocks and user turns made of tool
    results.  A later request carries at least two messages, and no request
    carries more than [1 + 2 * MAX_TOOL_ROUNDS], that is 5. *)
Theorem X6_conversation_shape query history tools tm w :
  let run := generate_response self query history tools tm w in
  let asked := mkMessage user (QueryText query) in
  hd_error (map messages (lm_requests (trace_of run))) = Some [asked] /\
  Forall (fun request =>
            exists tail,
              messages request = asked :: tail /\
              forallb is_round_message tail = true /\
              length (messages request) <= 1 + 2 * MAX_TOOL_ROUNDS)
         (lm_requests (trace_of run)) /\
  Forall (fun request => 2 <= length (messages request))
         (later_requests (trace_of run)).
Proof.
  intros run asked. destruct (run_eta run) as [w' Hrun].
  apply generate_response_run in Hrun.
  assert (Hfirst : exists tail,
             messages (api_params self query history tools) = asked :: tail /\
             forallb is_round_message tail = true /\
             length (messages (api_params self query history tools))
               <= 1 + 2 * MAX_TOOL_ROUNDS).
  { exists []. repeat split. simpl. lia. }
  inversion Hrun as [e0 Ho Ht|response Hguard Ho Ht
                     |response o rest Hstop Hwith Hloop Ho Ht].
  - repeat split; repeat constructor. exact Hfirst.
  - repeat split; repeat constructor. exact Hfirst.
  - apply rounds_run_messages in Hloop.
    unfold later_requests, lm_requests in *. cbn [lm_calls map fst tl hd_error].
    split; [reflexivity|]. split.
    + constructor; [exact Hfirst|].
      eapply Forall_impl; [|exact Hloop].
      intros request (tail & Hmsgs & _ & Hround & Hlen).
      exists tail. rewrite Hmsgs. repeat split; auto.
      cbn [messages api_params app length]. lia.
    + eapply Forall_impl; [|exact Hloop].
      intros request (tail & Hmsgs & Hne & _ & _).
      rewrite Hmsgs. destruct tail; [contradiction|]. simpl. lia.
Qed.

(** X7.  The parameters fixed by [__init__] are in every request of a run,
    the first and the later ones: the generator's model, temperature 0 and
    max_tokens 1200. *)
Theorem X7_base_params_in_every_request query history schemas tm w :
  let run := generate_response self query history schemas tm w in
  Forall (fun request =>
            model request = self_model self /\
            temperature request = 0%Z /\
            max_tokens request = 1200%Z)
         (lm_requests (trace_of run)).
Proof.
  intro run. destruct (run_eta run) as [w' Hrun].
  apply generate_response_run in Hrun.
  inversion Hrun as [e0 Ho Ht|response Hguard Ho Ht
                     |response o rest Hstop Hwith Hloop Ho Ht].
  - repeat constructor.
  - repeat constructor.
  - apply rounds_run_requests in Hloop.
    unfold lm_requests in *. cbn [lm_calls map fst].
    constructor; [repeat split|].
    eapply Forall_impl; [|exact Hloop].
    intros request ->. repeat split.
Qed.

(** X8.  Counting.  The batches of a run are numbered 1, 2, ... without
    gaps.  Every batch is followed by one LM call, except a batch in which a
    tool raised: the run makes one LM call more than it runs batches, or
    exactly as many when it ends on the apology for a failed batch. *)
Theorem X8_calls_and_batches query history tools tm w :
  let run := generate_response self query history tools tm w in
  let batches := tool_batches (trace_of run) in
  batches = seq 1 (length batches) /\
  length (lm_calls (trace_of run))
    = (if ended_by_tool_failure (result_of run)
       then length batches
       else S (length batches)).
Proof.
  intros run batches. subst batches. destruct (run_eta run) as [w' Hrun].
  apply generate_response_run in Hrun.
  inversion Hrun as [e0 Ho Ht|response Hguard Ho Ht
                     |response o rest Hstop Hwith Hloop Ho Ht].
  - split; reflexivity.
  - split; [reflexivity|].
    unfold first_block_text.
    destruct (content response) as [|[text|id name input|] tail]; reflexivity.
  - apply rounds_run_counts in Hloop. destruct Hloop as [Hseq Hlen].
    cbn [tool_batches lm_calls length]. split; [exact Hseq|].
    destruct (ended_by_tool_failure (result_of run)); lia.
Qed.

(** Empty arguments are treated as omitted ones: a run with an empty
    conversation history is the run without history, and a run with an empty
    tools list is the run without tools (same requests, same calls, same
    result). *)
Lemma empty_arguments_are_omitted query history schemas tm w :
  generate_response self query (Some EmptyString) schemas tm w
    = generate_response self query None schemas tm w /\
  generate_response self query history (Some []) tm w
    = generate_response self query history None tm w.
Proof. split; reflexivity. Qed.

(** *** Tool calls against what the LM asked for *)

Lemma tool_calls_app (t1 t2 : list Event) :
  tool_calls (t1 ++ t2) = tool_calls t1 ++ tool_calls t2.
Proof.
  induction t1 as [|ev t1 IH]; simpl; [reflexivity|].
  destruct ev; simpl; rewrite IH; reflexivity.
Qed.

Lemma tool_requests_in (blocks : list ContentBlock) name input :
  In (name, input) (tool_requests blocks) ->
  exists id, In (ToolUseBlock id name input) blocks.
Proof.
  unfold tool_requests. rewrite in_flat_map.
  intros (b & Hb & Hin). destruct b as [text|id n i|]; simpl in Hin;
    try contradiction.
  destruct Hin as [Heq|[]]. injection Heq as -> ->. exists id. exact Hb.
Qed.

Lemma tool_rounds_calls_requested (tm : ToolManager World) (base : Request) :
  forall remaining round_count msgs current w outcome w' trace,
    tool_rounds self remaining round_count msgs current base tm w
      = (outcome, w', trace) ->
    forall call,
      In call (tool_calls trace) ->
      exists response,
        (current = Some response \/
         exists request, In (request, inr response) (lm_calls trace)) /\
        stop_reason response = "tool_use" /\
        In (fst call) (tool_requests (content response)).
Proof.
  induction remaining as [|remaining IH];
    intros round_count msgs current w outcome w' trace Hrun call Hin.
  - inversion Hrun; subst. contradiction.
  - destruct current as [response|].
    2:{ inversion Hrun; subst. contradiction. }
    destruct (stop_reason response =? "tool_use")%string eqn:Hstop.
    2:{ cbn [tool_rounds] in Hrun. rewrite Hstop in Hrun.
        inversion Hrun; subst. contradiction. }
    apply String.eqb_eq in Hstop.
    rewrite (tool_rounds_unfold tm _ _ _ _ _ _ Hstop) in Hrun.
    cbv zeta in Hrun.
    destruct (_execute_all_tools response tm (S round_count) w)
      as [[[results ok] w1] t1] eqn:Hbatch.
    destruct (execute_all_tools_calls tm _ _ _ _ _ _ _ Hbatch)
      as (events & rest & -> & Hreq & _).
    assert (Hhere : forall c, In c (tool_calls events) ->
                              In (fst c) (tool_requests (content response))).
    { intros c Hc. rewrite Hreq. apply in_or_app. left.
      apply in_map. exact Hc. }
    destruct ok.
    + destruct (client self _ w1) as [out w2].
      destruct out as [e|next_response].
      * inversion Hrun; subst.
        cbn [tool_calls app] in Hin. rewrite tool_calls_app in Hin.
        cbn [tool_calls] in Hin. rewrite app_nil_r in Hin.
        exists response. auto.
      * destruct (tool_rounds self remaining (S round_count) _
                    (Some next_response) base tm w2)
          as [[o w3] t3] eqn:Hnext.
        inversion Hrun; subst.
        cbn [tool_calls app] in Hin. rewrite tool_calls_app in Hin.
        cbn [tool_calls] in Hin. apply in_app_or in Hin.
        destruct Hin as [Hin|Hin]; [exists response; auto|].
        destruct (IH _ _ _ _ _ _ _ Hnext call Hin)
          as (r & Hwhere & Hstopr & Hcall).
        exists r. split; [|auto]. right.
        cbn [lm_calls app]. rewrite lm_calls_app. cbn [lm_calls].
        destruct Hwhere as [Hcur|[request Hreq']].
        -- injection Hcur as <-. eexists. apply in_or_app. right.
           left. reflexivity.
        -- exists request. apply in_or_app. right. right. exact Hreq'.
    + inversion Hrun; subst. cbn [tool_calls] in Hin. exists response. auto.
Qed.

(** X9.  The engine never calls a tool the LM did not ask for: every tool
    call of a run has the name and the arguments of a tool-use block of a
    response that was delivered in that run with [stop_reason] "tool_use". *)
Theorem X9_only_requested_tools_are_called query history tools tm w :
  let run := generate_response self query history tools tm w in
  forall name input out,
    In (name, input, out) (tool_calls (trace_of run)) ->
    exists request response id,
      In (request, inr response) (lm_calls (trace_of run)) /\
      stop_reason response = "tool_use" /\
      In (ToolUseBlock id name input) (content response).
Proof.
  intros run name input out Hin.
  destruct run as [[o w'] trace] eqn:Hrun. subst run.
  cbn [trace_of snd] in *.
  unfold generate_response, bind, create in Hrun.
  destruct (client self _ w) as [first_out w1].
  destruct first_out as [e|response].
  { inversion Hrun; subst. contradiction. }
  assert (Hdirect : (ret (first_block_text response) w1 : _ * World * _)
                    = (first_block_text response, w1, [])) by reflexivity.
  destruct (stop_reason response =? "tool_use")%string eqn:Hstop.
  2:{ assert (Ht : tool_calls trace = []).
      { destruct tm; rewrite Hdirect in Hrun; inversion Hrun; reflexivity. }
      rewrite Ht in Hin. contradiction. }
  destruct tm as [manager|].
  2:{ rewrite Hdirect in Hrun. inversion Hrun; subst. contradiction. }
  destruct (_handle_tool_execution self (Some response) _ manager w1)
    as [[o2 w2] t2] eqn:Hloop.
  inversion Hrun; subst. cbn [tool_calls app] in Hin.
  destruct (tool_rounds_calls_requested manager _ _ _ _ _ _ _ _ _ Hloop
              _ Hin) as (r & Hwhere & Hstopr & Hcall).
  cbn [fst] in Hcall. apply tool_requests_in in Hcall.
  destruct Hcall as [id Hblock].
  cbn [lm_calls app].
  destruct Hwhere as [Hcur|[request Hreq]].
  - injection Hcur as <-. eexists. exists response, id.
    split; [left; reflexivity|auto].
  - exists request, r, id. split; [right; exact Hreq|auto].
Qed.

(** *** What the LM is told about the tools *)





End GeneratorFacts.

(** ** Runs on concrete collaborators *)

Module Examples.

Import Fixtures.

(** The runs of [tests/test_ai_generator.py], replayed on the embedding. *)

(** [test_generate_response_with_tool_use]: a tool request, then the final
    text; two LM calls. *)
Example tool_use_then_text :
  let run := generate_response (generator scripted)
               "What is machine learning?" None
               (Some [search_schema]) (Some working_tools)
               [inr (tool_use_response "mock-tool-id");
                inr (text_response
                       "Based on the search results, machine learning is...")] in
  result_of run
    = Return no_tool_use "Based on the search results, machine learning is..."
  /\ length (lm_calls (trace_of run)) = 2
  /\ tool_batches (trace_of run) = [1].
Proof. repeat split. Qed.

(** [test_sequential_two_round_tool_calling]: two tool requests, then the
    final text; three LM calls. *)
Example two_rounds_then_text :
  let run := generate_response (generator scripted)
               "Tell me about neural networks in the Machine Learning course"
               None (Some [search_schema]) (Some working_tools)
               [inr (tool_use_response "tool-1");
                inr (tool_use_response "tool-2");
                inr (text_response "Based on the course outline and specific search, neural networks are...")] in
  result_of run
    = Return max_rounds
        "Based on the course outline and specific search, neural networks are..."
  /\ length (lm_calls (trace_of run)) = 3
  /\ tool_batches (trace_of run) = [1; 2].
Proof. repeat split. Qed.

(** [test_max_rounds_enforcement]: every call returns a tool request; the
    run stops after two rounds with the extractor's fallback. *)
Example tool_use_forever :
  let run := generate_response
               (generator (returning (tool_use_response "mock-tool-id")))
               "Complex query that would need many searches" None
               (Some [search_schema]) (Some working_tools) tt in
  result_of run = Return max_rounds NO_TEXT_BLOCK_TEXT
  /\ length (lm_calls (trace_of run)) = 3
  /\ length (tool_calls (trace_of run)) = 2.
Proof. repeat split. Qed.

(** C2.  The first LM call of [generate_response] is made outside any
    [try]: when the client raises there (the mock of
    [test_anthropic_api_error], [side_effect = Exception("API Error")]), the
    exception reaches the caller instead of a string being returned.  The
    direct return reads [response.content[0].text] without the extractor:
    on an [end_turn] response with empty content it raises [IndexError]. *)
Theorem C2_first_call_failure_reaches_caller :
  result_of (generate_response (generator (raising "API Error"))
               "test query" None None None tt)
    = Raise (mkExn "Exception" "API Error")
  /\
  result_of (generate_response (generator (returning (mkResponse "end_turn" [])))
               "test query" None None None tt)
    = Raise IndexError.
Proof. split; reflexivity. Qed.

Lemma C1_witness :
  let run := generate_response
               (generator (returning (tool_use_response "mock-tool-id")))
               "Complex query that would need many searches" None
               (Some [search_schema]) (Some working_tools) tt in
  (all_request_tool_use (trace_of run) = true /\
   no_tool_raised (trace_of run) = true) /\
  tool_batches (trace_of run) = [1; 2] /\
  length (tool_batches (trace_of run)) = MAX_TOOL_ROUNDS /\
  length (lm_calls (trace_of run)) = 3 /\
  return_site (result_of run) = Some max_rounds.
Proof.
  intro run. split; [split; reflexivity|].
  apply (C1_bounded_rounds
           (generator (returning (tool_use_response "mock-tool-id"))));
    reflexivity.
Defined.

Lemma C1_counterexample : ~ bounded_rounds_as_stated.
Proof.
  intro Hclaim.
  specialize (Hclaim unit
                (generator (returning (tool_use_response "mock-tool-id")))
                "Complex query that would need many searches" None
                (Some [search_schema]) working_tools tt eq_refl eq_refl).
  destruct Hclaim as [_ Hcalls]. vm_compute in Hcalls. lia.
Qed.

Lemma C3_witness :
  let run := generate_response
               (generator (returning (text_response "Hello, this is a test response")))
               "Hello" None None None tt in
  result_of run = Return direct_response "Hello, this is a test response".
Proof.
  intro run.
  destruct (C3_no_manager_no_execution
              (generator (returning (text_response "Hello, this is a test response")))
              "Hello" None None tt) as (_ & _ & _ & Htext).
  eapply Htext; reflexivity.
Defined.

Lemma C3_counterexample : ~ no_tools_no_execution_as_stated.
Proof.
  intro Hclaim.
  specialize (Hclaim unit
                (generator (returning (tool_use_response "mock-tool-id")))
                "What is machine learning?" None (Some working_tools) tt).
  destruct Hclaim as [Hbatches _]. vm_compute in Hbatches. discriminate.
Qed.

(** A client whose second call fails, after a first tool-requesting
    response. *)
Lemma C4_witness :
  let run := generate_response (generator scripted)
               "What is machine learning?" None
               (Some [search_schema]) (Some working_tools)
               [inr (tool_use_response "tool-1");
                inl (mkExn "APIConnectionError" "Connection error.")] in
  result_of run = Return lm_failure_extracted NO_TEXT_BLOCK_TEXT.
Proof.
  intro run.
  epose proof (C4_later_lm_failure_recovered (generator scripted)
                 "What is machine learning?" None
                 (Some [search_schema]) (Some working_tools)
                 [inr (tool_use_response "tool-1");
                  inl (mkExn "APIConnectionError" "Connection error.")]
                 [] _ _ _ _ eq_refl) as (_ & previous & Hprev & Hout).
  simpl in Hprev. injection Hprev as <-. exact Hout.
Defined.

(** Scenario D: the tool raises "boom" in round 1. *)
Lemma C5_witness :
  let response := tool_use_response "tool-1" in
  let batch := _execute_all_tools response (@failing_tools unit) 1 tt in
  let run := generate_response (generator (returning response))
               "What is machine learning?" None
               (Some [search_schema]) (Some failing_tools) tt in
  result_of batch = ([], false) /\
  length (lm_calls (trace_of run)) = 1 /\
  result_of run = Return tool_failure TOOL_FAILURE_TEXT.
Proof.
  intros response batch run.
  destruct (C5_tool_failure_fail_fast
              (generator (returning response))) as [Hbatch Hrun].
  split; [|split].
  - apply (Hbatch response failing_tools 1 tt
                  (firstn 1 (trace_of batch))
                  (nth 1 (trace_of batch) (ToolBatch 0))
                  (skipn 2 (trace_of batch))); reflexivity.
  - reflexivity.
  - apply (Hrun "What is machine learning?" None
                (Some [search_schema]) (Some failing_tools) tt
                (firstn 2 (trace_of run))
                (nth 2 (trace_of run) (ToolBatch 0))
                (skipn 3 (trace_of run))); reflexivity.
Defined.

(** Scenario A: a tool request, then the final text. *)
Lemma C6_witness :
  let run := generate_response (generator scripted)
               "Tell me about machine learning" None
               (Some [search_schema]) (Some working_tools)
               [inr (tool_use_response "tool-123");
                inr (text_response "Result about X.")] in
  exists request request' results,
    lm_requests (trace_of run) = [request; request'] /\
    messages request'
      = messages request
          ++ [mkMessage assistant
                (Blocks (content (tool_use_response "tool-123")));
              mkMessage user (Results results)] /\
    map tool_use_id results = ["tool-123"].
Proof.
  intro run.
  epose proof (C6_results_precede_next_request (generator scripted)
                 "Tell me about machine learning" None
                 (Some [search_schema]) (Some working_tools)
                 [inr (tool_use_response "tool-123");
                  inr (text_response "Result about X.")]
                 [] _ _ _ _ _ "tool-123" eq_refl (or_introl eq_refl))
    as (results & Hmessages & Hids & _).
  do 2 eexists. exists results.
  split; [reflexivity|]. split; [exact Hmessages|exact Hids].
Defined.

Lemma C7_witness :
  let run := generate_response (generator scripted)
               "Complex comparison query"
               (Some "Previous: What is AI? Assistant: AI is...")
               (Some [search_schema]) (Some working_tools)
               [inr (tool_use_response "tool-1");
                inr (tool_use_response "tool-2");
                inr (text_response "Final answer")] in
  length (later_requests (trace_of run)) = 2 /\
  Forall (fun request =>
            system request
              = (SYSTEM_PROMPT ++ nl ++ nl ++ "Previous conversation:" ++ nl
                   ++ "Previous: What is AI? Assistant: AI is...")%string /\
            tools request = Some [search_schema] /\
            tool_choice request = Some (Some choice_auto))
         (later_requests (trace_of run)).
Proof.
  intro run. split; [reflexivity|].
  destruct (C7_later_requests_keep_system_and_tools (generator scripted)
              "Complex comparison query"
              (Some "Previous: What is AI? Assistant: AI is...")
              (Some [search_schema]) (Some working_tools)
              [inr (tool_use_response "tool-1");
               inr (tool_use_response "tool-2");
               inr (text_response "Final answer")])
    as (_ & Hsystem & Hlater).
  eapply Forall_impl; [|exact Hlater].
  intros request (Hsys & Htools & _).
  destruct (Htools eq_refl) as (Hsame & _ & Hchoice).
  split; [|split; assumption].
  rewrite Hsys. apply (Hsystem _ eq_refl). discriminate.
Defined.

Lemma C7_counterexample : ~ tools_persist_as_stated.
Proof.
  intro Hclaim.
  specialize (Hclaim Script (generator scripted) "What is machine learning?"
                None None (Some working_tools)
                [inr (tool_use_response "tool-1");
                 inr (text_response "Final answer")]).
  vm_compute in Hclaim.
  inversion Hclaim as [|request rest (_ & _ & Hchoice) _].
  discriminate Hchoice.
Qed.

(** C8.  The first response has [stop_reason] "end_turn" and carries the
    text "Paris is the capital of France." after a block without text.  The
    extractor finds that text, but [generate_response] does not return it:
    the direct return reads [response.content[0].text] and raises an
    [AttributeError] after its single LM call; on an "end_turn" response
    with empty content it raises [IndexError].  The same stop condition
    inside the round loop goes through [_extract_text_content]. *)
Theorem C8_end_turn_text_not_returned :
  let response :=
    mkResponse "end_turn"
      [OpaqueBlock; TextBlock "Paris is the capital of France."] in
  let run := generate_response (generator (returning response))
               "What is the capital of France?" None None
               (@None (ToolManager unit)) tt in
  let empty := generate_response
                 (generator (returning (mkResponse "end_turn" [])))
                 "What is the capital of France?" None None
                 (@None (ToolManager unit)) tt in
  _extract_text_content (Some response) = "Paris is the capital of France."
  /\ length (lm_calls (trace_of run)) = 1
  /\ tool_calls (trace_of run) = []
  /\ returned (result_of run) = None
  /\ (exists e, result_of run = Raise e /\ exn_class e = "AttributeError")
  /\ result_of empty = Raise IndexError.
Proof.
  intros response run empty. repeat split.
  eexists. split; reflexivity.
Qed.

(** Scenario B. *)
Lemma scenario_B_immediate_termination :
  let run := generate_response
               (generator (returning (text_response "Paris is the capital of France.")))
               "What is the capital of France?" None
               (Some [search_schema]) (Some working_tools) tt in
  length (lm_calls (trace_of run)) = 1 /\
  tool_calls (trace_of run) = [] /\
  result_of run = Return direct_response "Paris is the capital of France.".
Proof.
  intro run.
  epose proof (immediate_termination_text_first
                 (generator (returning (text_response "Paris is the capital of France.")))
                 "What is the capital of France?" None
                 (Some [search_schema]) (Some working_tools) tt
                 _ _ _ eq_refl eq_refl) as (_ & Hcalls & _ & Htext).
  split; [reflexivity|]. split; [exact Hcalls|].
  eapply Htext. reflexivity.
Defined.

(** The next-round call fails at once, and after one more round. *)
Lemma C10_witness :
  let initial := tool_use_response "tool-1" in
  let base := api_params (generator scripted) "q" None (Some [search_schema]) in
  let failure := mkExn "APIConnectionError" "Connection error." in
  let run1 := _handle_tool_execution (generator scripted) (Some initial) base
                working_tools [inl failure] in
  let run2 := _handle_tool_execution (generator scripted) (Some initial) base
                working_tools
                [inr (mkResponse "tool_use"
                        [TextBlock "Let me look further.";
                         ToolUseBlock "tool-2" "search_course_content" []]);
                 inl failure] in
  result_of run1 = Return lm_failure_extracted NO_TEXT_BLOCK_TEXT /\
  result_of run2 = Return lm_failure_extracted "Let me look further.".
Proof.
  intros initial base failure run1 run2. split.
  - destruct (C10_error_msg_branch_unreachable (generator scripted)
                (Some initial) base working_tools [inl failure])
      as (_ & Hfirst & _).
    edestruct Hfirst as (_ & response & Hinit & Hout); [reflexivity|].
    injection Hinit as <-. exact Hout.
  - destruct (C10_error_msg_branch_unreachable (generator scripted)
                (Some initial) base working_tools
                [inr (mkResponse "tool_use"
                        [TextBlock "Let me look further.";
                         ToolUseBlock "tool-2" "search_course_content" []]);
                 inl failure])
      as (_ & _ & Hlater).
    edestruct (Hlater []) as (_ & previous & Hprev & Hout); [reflexivity|].
    simpl in Hprev. injection Hprev as <-. exact Hout.
Defined.

End Examples.

(** ** Runs on concrete collaborators, continued *)

Module MoreExamples.

Import Fixtures.

(** A tool request answered in the next round by a text. *)
Lemma X1_witness :
  let run := generate_response (generator scripted)
               "Tell me about X" None
               (Some [search_schema]) (Some working_tools)
               [inr (tool_use_response "tool-123");
                inr (text_response "Result about X.")] in
  result_of run = Return no_tool_use "Result about X." /\
  exists response,
    last_response (trace_of run) = Some response /\
    "Result about X." = _extract_text_content (Some response).
Proof.
  intro run. split; [reflexivity|].
  destruct (X1_returned_text_is_last_extraction (generator scripted)
              "Tell me about X" None
              (Some [search_schema]) (Some working_tools)
              [inr (tool_use_response "tool-123");
               inr (text_response "Result about X.")]
              no_tool_use "Result about X." eq_refl)
    as [[Hsite _]|[_ Hlast]]; [discriminate|exact Hlast].
Defined.

(** The first call raises; and a first response that starts with text,
    followed by a failing LM call. *)
Lemma X2_witness :
  let failure := mkExn "APIConnectionError" "Connection error." in
  let run1 := generate_response (generator (raising "API Error"))
                "test query" None None (@None (ToolManager unit)) tt in
  let run2 := generate_response (generator scripted)
                "What is machine learning?" None
                (Some [search_schema]) (Some working_tools)
                [inr (mkResponse "tool_use"
                        [TextBlock "Let me search.";
                         ToolUseBlock "tool-1" "search_course_content" []]);
                 inl failure] in
  length (trace_of run1) = 1 /\
  returned (result_of run2) <> None.
Proof.
  intros failure run1 run2. split.
  - destruct (X2_raises_only_before_the_loop (generator (raising "API Error"))
                "test query" None None (@None (ToolManager unit)) tt)
      as [Hraise _].
    destruct (Hraise (mkExn "Exception" "API Error") eq_refl)
      as [Ht|(response & Ht & _)]; unfold run1; rewrite Ht; reflexivity.
  - destruct (X2_raises_only_before_the_loop (generator scripted)
                "What is machine learning?" None
                (Some [search_schema]) (Some working_tools)
                [inr (mkResponse "tool_use"
                        [TextBlock "Let me search.";
                         ToolUseBlock "tool-1" "search_course_content" []]);
                 inl failure])
      as [_ Hreturns].
    eapply Hreturns; reflexivity.
Defined.

(** Two tool-use blocks around a text block: a batch that completes and a
    batch whose first tool raises. *)
Lemma X3_witness :
  let response :=
    mkResponse "tool_use"
      [ToolUseBlock "tool-a" "get_course_outline" [("course_name", "MCP")];
       TextBlock "and then";
       ToolUseBlock "tool-b" "search_course_content" [("query", "X")]] in
  let good := _execute_all_tools response (@working_tools unit) 1 tt in
  let bad := _execute_all_tools response (@failing_tools unit) 1 tt in
  fst (result_of good)
    = [mkToolResult "tool-a" "results of get_course_outline";
       mkToolResult "tool-b" "results of search_course_content"] /\
  fst (result_of bad) = [] /\
  length (tool_calls (trace_of bad)) = 1.
Proof.
  intros response good bad. split; [|split].
  - destruct (X3_batch_calls_what_was_requested
                response (@working_tools unit) 1 tt)
      as (_ & _ & _ & Hgood & _).
    destruct (Hgood eq_refl) as (_ & Hresults & _). exact Hresults.
  - destruct (X3_batch_calls_what_was_requested
                response (@failing_tools unit) 1 tt)
      as (_ & _ & _ & _ & Hbad).
    exact (Hbad eq_refl).
  - reflexivity.
Defined.

Lemma X4_witness :
  let run := generate_response (generator scripted)
               "Tell me about X" None
               (Some [search_schema]) (Some working_tools)
               [inr (tool_use_response "tool-123");
                inr (text_response "Result about X.");
                inr (text_response "never requested")] in
  length (lm_calls (trace_of run)) = 2 /\
  exists site,
    result_of run = Return site "Result about X." /\
    (site = no_tool_use \/ site = max_rounds).
Proof.
  intro run. split; [reflexivity|].
  edestruct (X4_non_tool_response_ends_run (generator scripted)
               "Tell me about X" None
               (Some [search_schema]) (Some working_tools)
               [inr (tool_use_response "tool-123");
                inr (text_response "Result about X.");
                inr (text_response "never requested")]
               (firstn 3 (trace_of run)) _ _ _ eq_refl)
    as (_ & _ & Hlater); [simpl; discriminate|].
  apply Hlater. simpl. discriminate.
Defined.

(** A response that claims tool use but carries no tool-use block. *)
Lemma X5_witness :
  let run := generate_response (generator scripted)
               "What is machine learning?" None
               (Some [search_schema]) (Some working_tools)
               [inr (mkResponse "tool_use" [TextBlock "One moment."]);
                inr (text_response "Final answer")] in
  exists request request',
    lm_requests (trace_of run) = [request; request'] /\
    messages request'
      = messages request
          ++ [mkMessage assistant (Blocks [TextBlock "One moment."])].
Proof.
  intro run.
  epose proof (X5_conversation_is_append_only (generator scripted)
                 "What is machine learning?" None
                 (Some [search_schema]) (Some working_tools)
                 [inr (mkResponse "tool_use" [TextBlock "One moment."]);
                  inr (text_response "Final answer")]
                 [] _ _ _ _ _ eq_refl) as (_ & _ & Hnone).
  do 2 eexists. split; [reflexivity|]. exact (Hnone eq_refl).
Defined.

Lemma X9_witness :
  let run := generate_response (generator scripted)
               "Tell me about X" None
               (Some [search_schema]) (Some working_tools)
               [inr (tool_use_response "tool-123");
                inr (text_response "Result about X.")] in
  exists request response id,
    In (request, inr response) (lm_calls (trace_of run)) /\
    stop_reason response = "tool_use" /\
    In (ToolUseBlock id "search_course_content" [("query", "X")])
       (content response).
Proof.
  intro run.
  apply (X9_only_requested_tools_are_called (generator scripted)
           "Tell me about X" None
           (Some [search_schema]) (Some working_tools)
           [inr (tool_use_response "tool-123");
            inr (text_response "Result about X.")]
           "search_course_content" [("query", "X")]
           (inr "results of search_course_content")).
  left. reflexivity.
Defined.


(** The LM answers with an empty text. *)
Lemma X11_witness :
  let run := generate_response (generator (returning (text_response EmptyString)))
               "Hello" None None (@None (ToolManager unit)) tt in
  exists response,
    last_response (trace_of run) = Some response /\
    first_text_bearing (content response) = Some EmptyString.
Proof.
  intro run.
  apply (X11_empty_answer_only_from_empty_text
           (generator (returning (text_response EmptyString)))
           "Hello" None None (@None (ToolManager unit)) tt).
  reflexivity.
Defined.

End MoreExamples.
